(** * ClubCalendar sync job: the event transformation pipeline

    A shallow embedding of [src/sync/sync.py] (tag rule evaluation, the
    field derivers, [transform_event] and the per-event loop of
    [sync_events]) together with the properties the specification states
    about them, followed by the token and the page loop of the Source
    Client, the built-in configurations of [src/sync/storage.py], and
    further properties read off the code.

    Conventions of the embedding.
    - A raw event, an organisation config and a tag rule are what the JSON
      decoder hands to the code: dynamically typed values ([value]).  A
      dict is an association list read by its first binding of a key.
      Floating point numbers are outside the embedding.
    - A Python [str] is a [string] of bytes, the UTF-8 form of its text.
      [str.lower] and [str.strip] belong to the Python runtime, as
      [datetime.fromisoformat] does: the functions that call them take them
      as arguments ([runtime]), and [lower] and [strip] below are their
      restrictions to ASCII text, used to run examples.  [upper] folds the
      ASCII letters: it is used for the test of CANCELLED only, where it
      decides as [str.upper] does.
    - A call that may raise returns a [result]; only the class of the
      exception is kept.
    - [datetime.fromisoformat] belongs to the Python runtime, not to the
      repository: the functions that call it take the parser as an
      argument, and the theorems hold for every parser.  Times of the
      clock are microseconds since the first instant [datetime] can
      hold. *)

From Stdlib Require Import ZArith List String Ascii Bool Lia.
From Stdlib Require Import DecimalString.
Import ListNotations.

Local Open Scope string_scope.
Local Open Scope Z_scope.

Local Set Warnings "-register-all".

(** ** Exceptions *)

Inductive exn : Type :=
| AttributeError
| TypeError
| ValueError
| HTTPError
| OSError.

Inductive result (A : Type) : Type :=
| Ok (a : A)
| Raise (e : exn).

Arguments Ok {A} a.
Arguments Raise {A} e.

Definition bind {A B : Type} (m : result A) (k : A -> result B) : result B :=
  match m with
  | Ok a => k a
  | Raise e => Raise e
  end.

Notation "x <- m ;; k" := (bind m (fun x => k))
  (at level 61, m at next level, right associativity).

Definition exn_eqb (a b : exn) : bool :=
  match a, b with
  | AttributeError, AttributeError => true
  | TypeError, TypeError => true
  | ValueError, ValueError => true
  | HTTPError, HTTPError => true
  | OSError, OSError => true
  | _, _ => false
  end.

(** [try: body  except (classes): handler] *)
Definition try_except {A : Type} (body : result A) (classes : list exn)
    (handler : A) : result A :=
  match body with
  | Ok a => Ok a
  | Raise e => if existsb (exn_eqb e) classes then Ok handler else Raise e
  end.

(** ** Values *)

Inductive value : Type :=
| VNone
| VBool (b : bool)
| VInt (n : Z)
| VStr (s : string)
| VList (l : list value)
| VDict (d : list (string * value)).

Definition dict : Type := list (string * value).

Fixpoint lookup (k : string) (d : dict) : option value :=
  match d with
  | [] => None
  | (k', v) :: d' => if String.eqb k k' then Some v else lookup k d'
  end.

(** [d.get(k, default)] on a dict. *)
Definition dict_get (d : dict) (k : string) (default : value) : value :=
  match lookup k d with
  | Some v => v
  | None => default
  end.

(** [v.get(k, default)]: only a dict has the method. *)
Definition py_get (v : value) (k : string) (default : value) : result value :=
  match v with
  | VDict d => Ok (dict_get d k default)
  | _ => Raise AttributeError
  end.

(** [bool(v)] *)
Definition truthy (v : value) : bool :=
  match v with
  | VNone => false
  | VBool b => b
  | VInt n => negb (n =? 0)
  | VStr s => negb (String.eqb s "")
  | VList l => match l with [] => false | _ => true end
  | VDict d => match d with [] => false | _ => true end
  end.

(** A Python number: [bool] is a subclass of [int]. *)
Definition as_int (v : value) : option Z :=
  match v with
  | VBool b => Some (if b then 1 else 0)
  | VInt n => Some n
  | _ => None
  end.

(** [a == b] on the values a set can hold. *)
Definition py_eq (a b : value) : bool :=
  match as_int a, as_int b with
  | Some x, Some y => x =? y
  | _, _ =>
      match a, b with
      | VNone, VNone => true
      | VStr s, VStr t => String.eqb s t
      | _, _ => false
      end
  end.

(** [a - b] *)
Definition py_sub (a b : value) : result Z :=
  match as_int a, as_int b with
  | Some x, Some y => Ok (x - y)
  | _, _ => Raise TypeError
  end.

(** [h < b] with [h] an int. *)
Definition py_int_lt (h : Z) (b : value) : result bool :=
  match as_int b with
  | Some y => Ok (h <? y)
  | None => Raise TypeError
  end.

(** ** Strings *)

Definition is_upper (c : ascii) : bool :=
  let n := nat_of_ascii c in (65 <=? n)%nat && (n <=? 90)%nat.

Definition is_lower (c : ascii) : bool :=
  let n := nat_of_ascii c in (97 <=? n)%nat && (n <=? 122)%nat.

Definition lower_char (c : ascii) : ascii :=
  if is_upper c then ascii_of_nat (nat_of_ascii c + 32) else c.

Definition upper_char (c : ascii) : ascii :=
  if is_lower c then ascii_of_nat (nat_of_ascii c - 32) else c.

Fixpoint map_string (f : ascii -> ascii) (s : string) : string :=
  match s with
  | EmptyString => EmptyString
  | String c s' => String (f c) (map_string f s')
  end.

(** [str.lower] and [str.upper] as they act on ASCII text: the letters A
    to Z and a to z are folded and every other byte is kept.  The code
    under study reaches [str.lower] through the [runtime]; [lower] is the
    instance the examples run with, on ASCII names and patterns. *)
Definition lower (s : string) : string := map_string lower_char s.
Definition upper (s : string) : string := map_string upper_char s.

(** [s.startswith(p)] *)
Definition startswith (s p : string) : bool := String.prefix p s.

(** [p in s] *)
Fixpoint contains (s p : string) : bool :=
  String.prefix p s ||
  match s with
  | EmptyString => false
  | String _ s' => contains s' p
  end.

(** [s.endswith(p)] *)
Fixpoint endswith (s p : string) : bool :=
  String.eqb s p ||
  match s with
  | EmptyString => false
  | String _ s' => endswith s' p
  end.

(** [s.replace('Z', '+00:00')] *)
Fixpoint replace_Z (s : string) : string :=
  match s with
  | EmptyString => EmptyString
  | String c s' =>
      if Ascii.eqb c "Z"%char then "+00:00" ++ replace_Z s'
      else String c (replace_Z s')
  end.

(** [s.split(',')] *)
Fixpoint split_comma_aux (cur : string) (s : string) : list string :=
  match s with
  | EmptyString => [cur]
  | String c s' =>
      if Ascii.eqb c ","%char then cur :: split_comma_aux "" s'
      else split_comma_aux (cur ++ String c "") s'
  end.

Definition split_comma (s : string) : list string := split_comma_aux "" s.

(** The white space of ASCII: [str.isspace] holds of the characters 9 to
    13 and 28 to 32, and of no other ASCII character. *)
Definition is_space (c : ascii) : bool :=
  let n := nat_of_ascii c in
  ((9 <=? n)%nat && (n <=? 13)%nat) || ((28 <=? n)%nat && (n <=? 32)%nat).

Fixpoint lstrip (s : string) : string :=
  match s with
  | EmptyString => EmptyString
  | String c s' => if is_space c then lstrip s' else s
  end.

Fixpoint rstrip (s : string) : string :=
  match s with
  | EmptyString => EmptyString
  | String c s' =>
      match rstrip s' with
      | EmptyString => if is_space c then EmptyString else String c EmptyString
      | r => String c r
      end
  end.

(** [s.strip()] as it acts on ASCII text.  The code under study reaches
    [str.strip] through the [runtime]; [strip] is the instance the examples
    run with, on ASCII tag strings. *)
Definition strip (s : string) : string := rstrip (lstrip s).

(** ** Formatting: [str(v)] as an f-string computes it *)

Definition hex_digit (n : nat) : ascii :=
  if (n <? 10)%nat then ascii_of_nat (48 + n) else ascii_of_nat (87 + n).

Definition has_char (c : ascii) (s : string) : bool :=
  existsb (Ascii.eqb c) (list_ascii_of_string s).

(** [repr] of a [str]: single quotes unless the text has a single quote and
    no double quote; backslash, the quote and control characters escaped;
    bytes above the ASCII range kept as they are. *)
Definition repr_char (quote c : ascii) : string :=
  let n := nat_of_ascii c in
  if Ascii.eqb c quote || Ascii.eqb c "\"%char then String "\"%char (String c "")
  else if (n =? 9)%nat then "\t"
  else if (n =? 10)%nat then "\n"
  else if (n =? 13)%nat then "\r"
  else if (n <? 32)%nat || (n =? 127)%nat then
    "\x" ++ String (hex_digit (n / 16)) (String (hex_digit (n mod 16)) "")
  else String c "".

Definition repr_str (s : string) : string :=
  let quote :=
    if has_char "'"%char s && negb (has_char "034"%char s)
    then "034"%char else "'"%char in
  String quote
    (String.concat "" (map (repr_char quote) (list_ascii_of_string s))
     ++ String quote "").

Definition str_of_Z (n : Z) : string := NilZero.string_of_int (Z.to_int n).

Fixpoint py_repr (v : value) : string :=
  match v with
  | VNone => "None"
  | VBool true => "True"
  | VBool false => "False"
  | VInt n => str_of_Z n
  | VStr s => repr_str s
  | VList l => "[" ++ String.concat ", " (map py_repr l) ++ "]"
  | VDict d =>
      "{" ++ String.concat ", "
               (map (fun kv => match kv with
                               | (k, x) => repr_str k ++ ": " ++ py_repr x
                               end) d) ++ "}"
  end.

Definition py_str (v : value) : string :=
  match v with
  | VStr s => s
  | _ => py_repr v
  end.

(** ** Dates *)

Record datetime : Type := mk_datetime {
  year : Z;
  month : Z;
  day : Z;
  hour : Z;
  minute : Z;
  second : Z
}.

(** The runtime's [datetime.fromisoformat] on a [str]: [None] stands for
    its [ValueError]. *)
Definition iso_parser : Type := string -> option datetime.

Definition is_leap (y : Z) : bool :=
  (y mod 4 =? 0) && (negb (y mod 100 =? 0) || (y mod 400 =? 0)).

Definition days_before_year (y : Z) : Z :=
  let p := y - 1 in p * 365 + p / 4 - p / 100 + p / 400.

Definition days_in_month (y m : Z) : Z :=
  if m =? 2 then (if is_leap y then 29 else 28)
  else if (m =? 4) || (m =? 6) || (m =? 9) || (m =? 11) then 30
  else 31.

Definition days_before_month (y m : Z) : Z :=
  fold_left (fun acc k => acc + days_in_month y (Z.of_nat k))
            (seq 1 (Z.to_nat (m - 1))) 0.

Definition toordinal (dt : datetime) : Z :=
  days_before_year (year dt) + days_before_month (year dt) (month dt) + day dt.

(** [dt.weekday()]: Monday is 0, Sunday is 6. *)
Definition weekday (dt : datetime) : Z := (toordinal dt + 6) mod 7.

(** [datetime.fromisoformat(v.replace('Z', '+00:00'))]: a value that is not
    a [str] has no [replace] method. *)
Definition parse_start (fromisoformat : iso_parser) (v : value)
    : result datetime :=
  match v with
  | VStr s =>
      match fromisoformat (replace_Z s) with
      | Some dt => Ok dt
      | None => Raise ValueError
      end
  | _ => Raise AttributeError
  end.

(** ** Method calls and operators on values *)

(** [v.lower()] and [v.upper()]: only a [str] has the methods.
    [str_lower] is the runtime's [str.lower]. *)
Definition py_lower (str_lower : string -> string) (v : value) : result string :=
  match v with
  | VStr s => Ok (str_lower s)
  | _ => Raise AttributeError
  end.

Definition py_upper (v : value) : result string :=
  match v with
  | VStr s => Ok (upper s)
  | _ => Raise AttributeError
  end.

(** The items a [for] loop visits. *)
Definition py_iter (v : value) : result (list value) :=
  match v with
  | VList l => Ok l
  | VStr s => Ok (map (fun c => VStr (String c "")) (list_ascii_of_string s))
  | VDict d => Ok (map (fun kv => VStr (fst kv)) d)
  | _ => Raise TypeError
  end.

(** [v is None], [v == 'literal'], [v == 0] *)
Definition is_none (v : value) : bool :=
  match v with
  | VNone => true
  | _ => false
  end.

Definition eq_str (v : value) (s : string) : bool :=
  match v with
  | VStr t => String.eqb t s
  | _ => false
  end.

Definition eq_zero (v : value) : bool :=
  match as_int v with
  | Some x => x =? 0
  | None => false
  end.

(** [l + auto_tags] with [auto_tags] a list. *)
Definition py_concat (l : value) (auto_tags : list value) : result (list value) :=
  match l with
  | VList xs => Ok (xs ++ auto_tags)%list
  | _ => Raise TypeError
  end.

(** [list(set(l))].  The order in which Python lists a set is unspecified;
    the model lists the elements by first occurrence, and no theorem
    depends on that choice. *)
Definition hashable (v : value) : bool :=
  match v with
  | VList _ | VDict _ => false
  | _ => true
  end.

Definition set_add (s : list value) (x : value) : list value :=
  if existsb (py_eq x) s then s else (s ++ [x])%list.

Definition py_list_set (l : list value) : result (list value) :=
  if forallb hashable l then Ok (fold_left set_add l []) else Raise TypeError.

(** ** Tag Rule Evaluator: [apply_auto_tags] *)

(** The body of the loop over the rules: the tags one rule appends. *)
Definition rule_step (str_lower : string -> string) (event_name : string)
    (rule : value) : result (list value) :=
  rule_type <- py_get rule "type" VNone ;;
  p <- py_get rule "pattern" (VStr "") ;;
  pattern <- py_lower str_lower p ;;
  tag <- py_get rule "tag" VNone ;;
  if negb (truthy (VStr pattern)) || negb (truthy tag) then Ok []
  else
    let matched :=
      if eq_str rule_type "name-prefix" then startswith event_name pattern
      else if eq_str rule_type "name-contains" then contains event_name pattern
      else if eq_str rule_type "name-suffix" then endswith event_name pattern
      else false in
    Ok (if matched then [tag] else []).

Fixpoint auto_tags_loop (str_lower : string -> string) (event_name : string)
    (rules : list value) (auto_tags : list value) : result (list value) :=
  match rules with
  | [] => Ok auto_tags
  | rule :: rest =>
      ts <- rule_step str_lower event_name rule ;;
      auto_tags_loop str_lower event_name rest (auto_tags ++ ts)%list
  end.

Definition apply_auto_tags (str_lower : string -> string) (event rules : value)
    : result (list value) :=
  n <- py_get event "Name" (VStr "") ;;
  event_name <- py_lower str_lower n ;;
  rs <- py_iter rules ;;
  auto_tags_loop str_lower event_name rs [].

(** ** Field Deriver *)

(** [config.get('derived_fields', config.get('derivedFields', {}))] followed
    by the same for [time_of_day] / [timeOfDay]. *)
Definition time_config_of (config : value) : result value :=
  camel <- py_get config "derivedFields" (VDict []) ;;
  derived <- py_get config "derived_fields" camel ;;
  camel_t <- py_get derived "timeOfDay" (VDict []) ;;
  py_get derived "time_of_day" camel_t.

(** [time_config.get(bucket, {}).get('before', default)] *)
Definition before_of (time_config : value) (bucket : string) (default : Z)
    : result value :=
  b <- py_get time_config bucket (VDict []) ;;
  py_get b "before" (VInt default).

Definition derive_time_of_day (fromisoformat : iso_parser)
    (start_date_str config : value) : result (option string) :=
  try_except
    (start_dt <- parse_start fromisoformat start_date_str ;;
     let hour := hour start_dt in
     time_config <- time_config_of config ;;
     morning_before <- before_of time_config "morning" 12 ;;
     afternoon_before <- before_of time_config "afternoon" 17 ;;
     is_morning <- py_int_lt hour morning_before ;;
     if is_morning then Ok (Some "time:morning")
     else
       is_afternoon <- py_int_lt hour afternoon_before ;;
       if is_afternoon then Ok (Some "time:afternoon")
       else Ok (Some "time:evening"))
    [ValueError; AttributeError; TypeError]
    None.

Definition derive_availability (event : value) : result string :=
  limit <- py_get event "RegistrationsLimit" VNone ;;
  confirmed <- py_get event "ConfirmedRegistrationsCount" (VInt 0) ;;
  if is_none limit || eq_zero limit then Ok "availability:open"
  else
    spots <- py_sub limit confirmed ;;
    if spots <=? 0 then Ok "availability:full"
    else if spots <=? 5 then Ok "availability:limited"
    else Ok "availability:open".

Definition derive_weekend (fromisoformat : iso_parser) (start_date_str : value)
    : result bool :=
  try_except
    (start_dt <- parse_start fromisoformat start_date_str ;;
     Ok (5 <=? weekday start_dt))
    [ValueError; AttributeError; TypeError]
    false.

(** ** Event Transformer: [transform_event] *)

(** The functions of the Python runtime that the transformation calls:
    [datetime.fromisoformat], [str.lower] and [str.strip]. *)
Record runtime : Type := mk_runtime {
  rt_fromisoformat : iso_parser;
  rt_lower : string -> string;
  rt_strip : string -> string
}.

Record normalized_event : Type := mk_normalized {
  id_ : value;
  name : value;
  start : value;
  end_ : value;
  location : value;
  description : value;
  url : value;
  registrationUrl : value;
  tags : list value;
  spotsAvailable : value;
  isFull : bool;
  registrationEnabled : value;
  accessLevel : value
}.

(** The source tags: a comma separated [str] is split and stripped, [None]
    is the empty list, anything else is kept as it is. *)
Definition parse_wa_tags (str_strip : string -> string) (wa_tags : value)
    : value :=
  match wa_tags with
  | VStr s =>
      VList (map VStr
               (filter (fun t => truthy (VStr t))
                  (map str_strip (split_comma s))))
  | VNone => VList []
  | other => other
  end.

(** [org_config.get('auto_tag_rules', org_config.get('autoTagRules', []))] *)
Definition auto_tag_rules_of (org_config : value) : result value :=
  camel <- py_get org_config "autoTagRules" (VList []) ;;
  py_get org_config "auto_tag_rules" camel.

(** [wa_tags + auto_tags] once every derived tag is appended. *)
Definition collect_tags (rt : runtime) (event org_config : value)
    : result (list value) :=
  t <- py_get event "Tags" (VList []) ;;
  let wa_tags := parse_wa_tags (rt_strip rt) t in
  auto_tag_rules <- auto_tag_rules_of org_config ;;
  auto_tags <- apply_auto_tags (rt_lower rt) event auto_tag_rules ;;
  start_date <- py_get event "StartDate" (VStr "") ;;
  time_tag <- derive_time_of_day (rt_fromisoformat rt) start_date org_config ;;
  let auto_tags :=
    match time_tag with
    | Some tg => if truthy (VStr tg) then (auto_tags ++ [VStr tg])%list else auto_tags
    | None => auto_tags
    end in
  avail_tag <- derive_availability event ;;
  let auto_tags := (auto_tags ++ [VStr avail_tag])%list in
  weekend <- derive_weekend (rt_fromisoformat rt) start_date ;;
  let auto_tags :=
    if weekend then (auto_tags ++ [VStr "day:weekend"])%list else auto_tags in
  py_concat wa_tags auto_tags.

(** [None if limit is None else max(0, limit - confirmed)] *)
Definition spots_of (event : value) : result value :=
  limit <- py_get event "RegistrationsLimit" VNone ;;
  confirmed <- py_get event "ConfirmedRegistrationsCount" (VInt 0) ;;
  if is_none limit then Ok VNone
  else
    d <- py_sub limit confirmed ;;
    Ok (VInt (Z.max 0 d)).

(** The event URL, constructed from the identifier when the source gives
    none. *)
Definition event_url_of (event event_id : value) : result value :=
  event_url <- py_get event "Url" (VStr "") ;;
  if negb (truthy event_url) && truthy event_id
  then Ok (VStr ("https://sbnewcomers.org/event-" ++ py_str event_id))
  else Ok event_url.

Definition description_of (event : value) : result value :=
  details <- py_get event "Details" VNone ;;
  match details with
  | VDict _ =>
      d <- py_get event "Details" (VDict []) ;;
      py_get d "DescriptionHtml" (VStr "")
  | _ => Ok (VStr "")
  end.

Definition transform_event (rt : runtime)
    (event org_config : value) : result normalized_event :=
  combined <- collect_tags rt event org_config ;;
  all_tags <- py_list_set combined ;;
  spots <- spots_of event ;;
  event_id <- py_get event "Id" VNone ;;
  event_url <- event_url_of event event_id ;;
  start_date <- py_get event "StartDate" (VStr "") ;;
  ev_name <- py_get event "Name" (VStr "") ;;
  ev_end <- py_get event "EndDate" (VStr "") ;;
  ev_location <- py_get event "Location" (VStr "") ;;
  ev_description <- description_of event ;;
  ev_registration_url <- py_get event "RegistrationUrl" (VStr "") ;;
  ev_enabled <- py_get event "RegistrationEnabled" (VBool true) ;;
  ev_access <- py_get event "AccessLevel" (VStr "Public") ;;
  Ok {| id_ := event_id;
        name := ev_name;
        start := start_date;
        end_ := ev_end;
        location := ev_location;
        description := ev_description;
        url := event_url;
        registrationUrl := ev_registration_url;
        tags := all_tags;
        spotsAvailable := spots;
        isFull := if is_none spots then false else eq_zero spots;
        registrationEnabled := ev_enabled;
        accessLevel := ev_access |}.

(** ** Sync Orchestrator: [sync_events] *)

(** A record of [logger.warning]: the identifier of the event that failed
    and the class of the exception. *)
Record warning : Type := mk_warning {
  failed_event : value;
  failure : exn
}.

(** The loop over the fetched events. *)
Fixpoint transform_loop (rt : runtime) (org_config : value)
    (raw_events : list value) (transformed_events : list normalized_event)
    (log : list warning) : result (list normalized_event * list warning) :=
  match raw_events with
  | [] => Ok (transformed_events, log)
  | event :: rest =>
      n <- py_get event "Name" (VStr "") ;;
      upper_name <- py_upper n ;;
      if contains upper_name "CANCELLED"
      then transform_loop rt org_config rest transformed_events log
      else
        match transform_event rt event org_config with
        | Ok transformed =>
            transform_loop rt org_config rest
              (transformed_events ++ [transformed])%list log
        | Raise e =>
            event_id <- py_get event "Id" VNone ;;
            transform_loop rt org_config rest transformed_events
              (log ++ [mk_warning event_id e])%list
        end
  end.

Record output : Type := mk_output {
  _warning : string;
  _generated : string;
  _orgId : string;
  eventCount : nat;
  events : list normalized_event
}.

Record sync_result : Type := mk_sync_result {
  success : bool;
  result_eventCount : nat;
  result_url : string;
  timestamp : string
}.

(** What a run reads from its surroundings: the credentials and the
    organisation of the configuration, what the storage backend and the
    source client answer, and the clock. *)
Record sync_env : Type := mk_sync_env {
  account_id : string;
  api_key : string;
  org_id : string;
  load_config : result value;
  get_events : result (list value);
  utcnow_isoformat : string;
  save_events : output -> result string
}.

Definition sync_events (rt : runtime) (env : sync_env)
    : result (sync_result * output * list warning) :=
  if negb (truthy (VStr (account_id env))) || negb (truthy (VStr (api_key env)))
  then Raise ValueError
  else
    org_config <- load_config env ;;
    raw_events <- get_events env ;;
    r <- transform_loop rt org_config raw_events [] [] ;;
    let transformed_events := fst r in
    let out :=
      {| _warning := "This file is auto-generated. Do not edit manually.";
         _generated := utcnow_isoformat env ++ "Z";
         _orgId := org_id env;
         eventCount := List.length transformed_events;
         events := transformed_events |} in
    u <- save_events env out ;;
    Ok ({| success := true;
           result_eventCount := List.length transformed_events;
           result_url := u;
           timestamp := _generated out |},
        out, snd r).

(** ** A reference parser

    One [iso_parser] to run the functions on concrete timestamps: it reads
    [YYYY-MM-DD], optionally followed by one separator character,
    [HH[:MM[:SS[.fff[fff]]]]] and a UTC offset [+HH:MM] or [-HH:MM], which
    is the text [datetime.isoformat] writes, and rejects anything else. *)

Definition digit_of (c : ascii) : option Z :=
  let n := nat_of_ascii c in
  if (48 <=? n)%nat && (n <=? 57)%nat then Some (Z.of_nat (n - 48)) else None.

Fixpoint digits (k : nat) (s : string) (acc : Z) : option (Z * string) :=
  match k with
  | O => Some (acc, s)
  | S k' =>
      match s with
      | EmptyString => None
      | String c s' =>
          match digit_of c with
          | Some d => digits k' s' (acc * 10 + d)
          | None => None
          end
      end
  end.

Definition expect (c : ascii) (s : string) : option string :=
  match s with
  | String c' s' => if Ascii.eqb c c' then Some s' else None
  | EmptyString => None
  end.

Definition obind {A B : Type} (m : option A) (k : A -> option B) : option B :=
  match m with
  | Some a => k a
  | None => None
  end.

(** The UTC offset, or nothing, up to the end of the text. *)
Definition parse_offset (s : string) : option unit :=
  match s with
  | EmptyString => Some tt
  | String c s1 =>
      if Ascii.eqb c "+"%char || Ascii.eqb c "-"%char then
        obind (digits 2 s1 0) (fun '(h, s2) =>
        obind (expect ":"%char s2) (fun s3 =>
        obind (digits 2 s3 0) (fun '(m, s4) =>
        if (h <? 24) && (m <? 60) && String.eqb s4 "" then Some tt else None)))
      else None
  end.

(** The fraction of a second, or nothing: three or six digits. *)
Definition parse_fraction (s : string) : option string :=
  match s with
  | String "."%char s1 =>
      obind (digits 3 s1 0) (fun '(_, s2) =>
      match digits 3 s2 0 with
      | Some (_, s3) => Some s3
      | None => Some s2
      end)
  | _ => Some s
  end.

(** [HH[:MM[:SS[.fff[fff]]]]] and the offset: hour, minute, second. *)
Definition parse_time (s : string) : option (Z * Z * Z) :=
  obind (digits 2 s 0) (fun '(h, s1) =>
  match s1 with
  | String ":"%char s2 =>
      obind (digits 2 s2 0) (fun '(m, s3) =>
      match s3 with
      | String ":"%char s4 =>
          obind (digits 2 s4 0) (fun '(sec, s5) =>
          obind (parse_fraction s5) (fun s6 =>
          obind (parse_offset s6) (fun _ => Some (h, m, sec))))
      | _ => obind (parse_offset s3) (fun _ => Some (h, m, 0))
      end)
  | _ => obind (parse_offset s1) (fun _ => Some (h, 0, 0))
  end).

Definition valid_datetime (dt : datetime) : bool :=
  (1 <=? year dt) && (1 <=? month dt) && (month dt <=? 12) &&
  (1 <=? day dt) && (day dt <=? days_in_month (year dt) (month dt)) &&
  (hour dt <? 24) && (minute dt <? 60) && (second dt <? 60).

Definition reference_fromisoformat : iso_parser := fun s =>
  obind (digits 4 s 0) (fun '(y, s1) =>
  obind (expect "-"%char s1) (fun s2 =>
  obind (digits 2 s2 0) (fun '(mo, s3) =>
  obind (expect "-"%char s3) (fun s4 =>
  obind (digits 2 s4 0) (fun '(d, s5) =>
  obind (match s5 with
         | EmptyString => Some (0, 0, 0)
         | String _ s6 => parse_time s6
         end) (fun '(h, mi, sec) =>
  let dt := mk_datetime y mo d h mi sec in
  if valid_datetime dt then Some dt else None)))))).

(** The runtime of the examples: the reference parser, and [str.lower] and
    [str.strip] as they act on ASCII text. *)
Definition reference_runtime : runtime :=
  {| rt_fromisoformat := reference_fromisoformat;
     rt_lower := lower;
     rt_strip := strip |}.

(** The run of [env] had the source client answered [raw_events]. *)
Definition with_events (env : sync_env) (raw_events : list value) : sync_env :=
  {| account_id := account_id env;
     api_key := api_key env;
     org_id := org_id env;
     load_config := load_config env;
     get_events := Ok raw_events;
     utcnow_isoformat := utcnow_isoformat env;
     save_events := save_events env |}.

(** A run of the job used by the examples: credentials present, no stored
    rules, a storage backend that accepts the document. *)
Definition sample_env (raw_events : list value) : sync_env :=
  {| account_id := "12345";
     api_key := "secret";
     org_id := "sbnc";
     load_config := Ok (VDict []);
     get_events := Ok raw_events;
     utcnow_isoformat := "2024-01-01T00:00:00";
     save_events := fun _ => Ok "/data/sbnc/events.json" |}.

(** The name of an event is a [str], or the event has none. *)
Definition well_named (event : value) : Prop :=
  exists d, event = VDict d /\
    (lookup "Name" d = None \/ exists n, lookup "Name" d = Some (VStr n)).

(** ** The Tag Rule Evaluator as the specification words it

    A rule matches an event name when its pattern and its tag are not
    empty and, letter case apart, the name starts with the pattern
    ([name-prefix]), holds it ([name-contains]) or ends with it
    ([name-suffix]); a rule of any other type matches nothing.  Letter
    case apart: on the lower case forms, as [str_lower] gives them. *)

Definition rule_matches (str_lower : string -> string) (event_name : string)
    (rule : dict) (tag : value) : Prop :=
  exists pattern,
    dict_get rule "pattern" (VStr "") = VStr pattern /\
    pattern <> "" /\
    tag = dict_get rule "tag" VNone /\
    truthy tag = true /\
    ((dict_get rule "type" VNone = VStr "name-prefix" /\
      exists t, str_lower event_name = str_lower pattern ++ t) \/
     (dict_get rule "type" VNone = VStr "name-contains" /\
      exists a b, str_lower event_name = a ++ str_lower pattern ++ b) \/
     (dict_get rule "type" VNone = VStr "name-suffix" /\
      exists a, str_lower event_name = a ++ str_lower pattern)).

(** The tags of the matching rules, in the order of the rule list. *)
Inductive emitted (str_lower : string -> string) (event_name : string)
    : list value -> list value -> Prop :=
| emitted_nil : emitted str_lower event_name [] []
| emitted_match (rule : dict) (tag : value) (rules tags : list value) :
    rule_matches str_lower event_name rule tag ->
    emitted str_lower event_name rules tags ->
    emitted str_lower event_name (VDict rule :: rules) (tag :: tags)
| emitted_skip (rule : dict) (rules tags : list value) :
    (forall tag, ~ rule_matches str_lower event_name rule tag) ->
    emitted str_lower event_name rules tags ->
    emitted str_lower event_name (VDict rule :: rules) tags.

(** What every [str.lower] does: only the empty text becomes empty. *)
Definition keeps_emptiness (str_lower : string -> string) : Prop :=
  forall p, str_lower p = "" <-> p = "".

(** A tag rule as the configuration document holds it: an object whose
    pattern, when given, is a string. *)
Definition well_formed_rule (rule : value) : Prop :=
  exists d p, rule = VDict d /\ dict_get d "pattern" (VStr "") = VStr p.

Definition recognised_type (v : value) : Prop :=
  v = VStr "name-prefix" \/ v = VStr "name-contains" \/ v = VStr "name-suffix".

(** The exceptions the derivers catch, and a computation that raises no
    other. *)
Definition caught (e : exn) : Prop :=
  e = ValueError \/ e = AttributeError \/ e = TypeError.

Definition raises_caught {A : Type} (m : result A) : Prop :=
  forall e, m = Raise e -> caught e.

(** ** The loop of [sync_events], event by event

    What one fetched event contributes to a run: nothing when its name
    marks it as cancelled, one output event when [transform_event] returns,
    one warning when it raises. *)

Definition is_cancelled (event : value) : bool :=
  match event with
  | VDict d =>
      match dict_get d "Name" (VStr "") with
      | VStr n => contains (upper n) "CANCELLED"
      | _ => false
      end
  | _ => false
  end.

Definition transformed_of (rt : runtime) (org_config event : value)
    : list normalized_event :=
  match transform_event rt event org_config with
  | Ok t => [t]
  | Raise _ => []
  end.

Definition warning_of (rt : runtime) (org_config event : value) : list warning :=
  match transform_event rt event org_config, event with
  | Raise e, VDict d => [mk_warning (dict_get d "Id" VNone) e]
  | _, _ => []
  end.

(** The document a run writes for a configuration and a fetched list. *)
Definition document_of (rt : runtime) (env : sync_env) (org_config : value)
    (raw_events : list value) : output :=
  let kept := filter (fun e => negb (is_cancelled e)) raw_events in
  let evs := flat_map (transformed_of rt org_config) kept in
  {| _warning := "This file is auto-generated. Do not edit manually.";
     _generated := utcnow_isoformat env ++ "Z";
     _orgId := org_id env;
     eventCount := List.length evs;
     events := evs |}.

(** ** Source tags given as one string

    The vocabulary to speak of the pieces of a comma separated tag string:
    the first and the last character of a text, a text made of white space
    only, and a tag that [parse_wa_tags] returns unchanged. *)

Definition first_char (s : string) : option ascii :=
  match s with
  | EmptyString => None
  | String c _ => Some c
  end.

Fixpoint last_char (s : string) : option ascii :=
  match s with
  | EmptyString => None
  | String c s' =>
      match last_char s' with
      | Some l => Some l
      | None => Some c
      end
  end.

Fixpoint all_space (s : string) : bool :=
  match s with
  | EmptyString => true
  | String c s' => is_space c && all_space s'
  end.

(** The configuration as the specification reads it.  A section of the
    configuration has two names: the value under the snake_case key when
    the key is there, else the value under the camelCase key, else an empty
    section. *)
Definition section_of (d : dict) (snake camel : string) (sec : dict) : Prop :=
  lookup snake d = Some (VDict sec) \/
  (lookup snake d = None /\ lookup camel d = Some (VDict sec)) \/
  (lookup snake d = None /\ lookup camel d = None /\ sec = []).

(** The boundary hour of a bucket of the time-of-day table: the hour under
    the [before] key of the bucket, and the default when the table has no
    such bucket or the bucket no such key. *)
Definition boundary_of (time_of_day : dict) (bucket : string) (default b : Z)
    : Prop :=
  (lookup bucket time_of_day = None /\ b = default) \/
  exists entry,
    lookup bucket time_of_day = Some (VDict entry) /\
    (lookup "before" entry = Some (VInt b) \/
     (lookup "before" entry = None /\ b = default)).

(** Text whose characters are all ASCII: every byte of its UTF-8 form is
    below 128. *)
Fixpoint is_ascii (s : string) : bool :=
  match s with
  | EmptyString => true
  | String c s' => (nat_of_ascii c <? 128)%nat && is_ascii s'
  end.

(** What is known of [str.strip] here: on ASCII text it removes the leading
    and the trailing ASCII white space, the characters 9 to 13 and 28 to
    32.  On other text it also removes the white space of Unicode, which
    this development leaves to the runtime. *)
Definition strips_ascii (str_strip : string -> string) : Prop :=
  forall s, is_ascii s = true -> str_strip s = strip s.

Definition clean_tag (t : string) : Prop :=
  has_char ","%char t = false /\
  (exists c, first_char t = Some c /\ is_space c = false) /\
  (exists c, last_char t = Some c /\ is_space c = false).

(** The keys of a raw event that [transform_event] reads. *)
Definition consumed_keys : list string :=
  ["Tags"; "Name"; "StartDate"; "RegistrationsLimit";
   "ConfirmedRegistrationsCount"; "Id"; "Url"; "EndDate"; "Location";
   "Details"; "RegistrationUrl"; "RegistrationEnabled"; "AccessLevel"].

(** The fields of the output that are copies of a key of the raw event:
    the key, the value taken when the key is absent, the field. *)
Definition copied_fields : list (string * value * (normalized_event -> value)) :=
  [("Id", VNone, id_);
   ("Name", VStr "", name);
   ("StartDate", VStr "", start);
   ("EndDate", VStr "", end_);
   ("Location", VStr "", location);
   ("RegistrationUrl", VStr "", registrationUrl);
   ("RegistrationEnabled", VBool true, registrationEnabled);
   ("AccessLevel", VStr "Public", accessLevel)].


(** The derived tags of an event, in the order the code appends them. *)
Definition derived_tags (time_tag : option string) (avail_tag : string)
    (weekend : bool) : list value :=
  ((match time_tag with Some tg => [VStr tg] | None => [] end)
   ++ [VStr avail_tag]
   ++ (if weekend then [VStr "day:weekend"] else []))%list.

(** ** Storage Gateway: the built-in configurations ([storage.py])

    [_default_config] of the two backends, and [load_config] of each: the
    stored document when there is one ([None]: no document, no file), the
    built-in configuration otherwise.  Reading the document may raise. *)

Definition time_of_day_defaults : value :=
  VDict [("morning", VDict [("before", VInt 12)]);
         ("afternoon", VDict [("from", VInt 12); ("before", VInt 17)]);
         ("evening", VDict [("from", VInt 17)])].

Definition google_default_config : value :=
  VDict [("autoTagRules", VList []);
         ("derivedFields", VDict [("timeOfDay", time_of_day_defaults)])].

Definition local_default_config : value :=
  VDict [("auto_tag_rules", VList []);
         ("derived_fields", VDict [("time_of_day", time_of_day_defaults)])].

Definition google_load_config (stored : option (result value)) : result value :=
  match stored with
  | Some document => document
  | None => Ok google_default_config
  end.

Definition local_load_config (stored : option (result value)) : result value :=
  match stored with
  | Some document => document
  | None => Ok local_default_config
  end.

(** ** Source Client: the pages of [get_events]

    The server as the loop sees it: what a GET of a page URL answers once
    [raise_for_status] and [json()] are through, given whether the filter
    and sort parameters are sent with it.  The loop has no bound of its
    own; the model counts the requests it may still send, and [None] says
    that the count ran out. *)

Definition http_get : Type := value -> bool -> result value.

(** [all_events.extend(v)] *)
Definition py_extend (all_events : list value) (v : value) : result (list value) :=
  items <- py_iter v ;; Ok (all_events ++ items)%list.

Fixpoint fetch_pages (requests : nat) (get : http_get) (url : string)
    (page_url : value) (all_events : list value)
    : option (result (list value)) :=
  if truthy page_url then
    match requests with
    | O => None
    | S requests' =>
        match get page_url (eq_str page_url url) with
        | Raise e => Some (Raise e)
        | Ok (VDict d) =>
            match py_extend all_events (dict_get d "Events" (VList [])) with
            | Raise e => Some (Raise e)
            | Ok all_events' =>
                fetch_pages requests' get url
                  (dict_get d "ResultNextPageUrl" VNone) all_events'
            end
        | Ok data =>
            match py_extend all_events data with
            | Raise e => Some (Raise e)
            | Ok all_events' => fetch_pages requests' get url VNone all_events'
            end
        end
    end
  else Some (Ok all_events).

(** The loop of [get_events], from the first page. *)
Definition get_events_pages (requests : nat) (get : http_get) (url : string)
    : option (result (list value)) :=
  fetch_pages requests get url (VStr url) [].

(** A server that holds [pages], each an object with its events and the
    URL of the next one; the last page links to [last_next]. *)
Fixpoint serves (get : http_get) (url : string)
    (pages : list (string * list value)) (last_next : value) : Prop :=
  match pages with
  | [] => True
  | (u, evs) :: rest =>
      u <> "" /\
      (exists d,
         get (VStr u) (String.eqb u url) = Ok (VDict d) /\
         dict_get d "Events" (VList []) = VList evs /\
         dict_get d "ResultNextPageUrl" VNone =
           match rest with
           | [] => last_next
           | (u', _) :: _ => VStr u'
           end) /\
      serves get url rest last_next
  end.

Definition first_url (pages : list (string * list value)) (last_next : value)
    : value :=
  match pages with
  | [] => last_next
  | (u, _) :: _ => VStr u
  end.

(** ** Source Client: the token of [_get_token]

    The client keeps a token and its expiry.  A call reads the clock to
    test the expiry and, when it refreshes, once more to set the new one;
    times are in microseconds from the first instant of [datetime].  [post]
    is what the token endpoint answers once [raise_for_status] and [json()]
    are through.  A call yields the new state of the client, its outcome
    and the number of requests it sent.  Line 67 stores the new token
    before line 68 computes the expiry, so a call that fails on line 68
    leaves the new token beside the old expiry. *)

Record wa_client : Type := mk_wa_client {
  token : value;
  token_expires : option Z
}.

Inductive token_outcome : Type :=
| Token (t : value)
| TokenRaise (e : exn)
| TokenKeyError
| TokenOverflowError.

(** [data[key]] *)
Definition py_getitem (data : value) (key : string) : token_outcome :=
  match data with
  | VDict d =>
      match lookup key d with
      | Some v => Token v
      | None => TokenKeyError
      end
  | _ => TokenRaise TypeError
  end.

(** [timedelta(seconds=n)], in microseconds: a [timedelta] holds at most
    999999999 days in either direction, and its constructor raises
    OverflowError beyond. *)
Definition timedelta_seconds (n : Z) : option Z :=
  if (-999999999 <=? n / 86400) && (n / 86400 <=? 999999999)
  then Some (n * 1000000)
  else None.

(** The microseconds from 0001-01-01 00:00:00 to the end of 9999-12-31. *)
Definition datetime_range : Z := 3652059 * 86400 * 1000000.

(** [now + delta]: OverflowError when the sum leaves the years 1 to 9999. *)
Definition datetime_add (now delta : Z) : option Z :=
  if (0 <=? now + delta) && (now + delta <? datetime_range)
  then Some (now + delta)
  else None.

(** [datetime.now() + timedelta(seconds=seconds)] *)
Definition expiry_after (now seconds : Z) : option Z :=
  match timedelta_seconds seconds with
  | Some delta => datetime_add now delta
  | None => None
  end.

(** [self.token and self.token_expires and datetime.now() < self.token_expires] *)
Definition token_is_fresh (self : wa_client) (now : Z) : bool :=
  truthy (token self) &&
  match token_expires self with
  | Some expires => now <? expires
  | None => false
  end.

Definition _get_token (self : wa_client) (now_at_test now_at_refresh : Z)
    (post : result value) : wa_client * token_outcome * nat :=
  if token_is_fresh self now_at_test then (self, Token (token self), 0%nat)
  else
    match post with
    | Raise e => (self, TokenRaise e, 1%nat)
    | Ok data =>
        match py_getitem data "access_token" with
        | Token access_token =>
            let self1 := {| token := access_token;
                            token_expires := token_expires self |} in
            match py_getitem data "expires_in" with
            | Token expires_in =>
                match py_sub expires_in (VInt 60) with
                | Ok seconds =>
                    match expiry_after now_at_refresh seconds with
                    | Some expires =>
                        ({| token := access_token;
                            token_expires := Some expires |},
                         Token access_token, 1%nat)
                    | None => (self1, TokenOverflowError, 1%nat)
                    end
                | Raise e => (self1, TokenRaise e, 1%nat)
                end
            | failure => (self1, failure, 1%nat)
            end
        | failure => (self, failure, 1%nat)
        end
    end.

(** * Properties *)

(** ** Strings *)

Lemma append_nil_r (s : string) : s ++ "" = s.
Proof. induction s as [|c s IH]; simpl; [reflexivity | now rewrite IH]. Qed.

Lemma append_assoc (a b c : string) : (a ++ b) ++ c = a ++ b ++ c.
Proof. induction a as [|x a IH]; simpl; [reflexivity | now rewrite IH]. Qed.

Lemma map_string_app (f : ascii -> ascii) (a b : string) :
  map_string f (a ++ b) = map_string f a ++ map_string f b.
Proof. induction a as [|x a IH]; simpl; [reflexivity | now rewrite IH]. Qed.

Lemma upper_lower_char (c : ascii) : upper_char (lower_char c) = upper_char c.
Proof. destruct c as [[] [] [] [] [] [] [] []]; reflexivity. Qed.

Lemma lower_upper_char (c : ascii) : lower_char (upper_char c) = lower_char c.
Proof. destruct c as [[] [] [] [] [] [] [] []]; reflexivity. Qed.

Lemma lower_lower_char (c : ascii) : lower_char (lower_char c) = lower_char c.
Proof. destruct c as [[] [] [] [] [] [] [] []]; reflexivity. Qed.

Lemma upper_lower (s : string) : upper (lower s) = upper s.
Proof.
  induction s as [|c s IH]; simpl; [reflexivity|].
  unfold upper, lower in *. simpl. now rewrite upper_lower_char, IH.
Qed.

Lemma lower_upper (s : string) : lower (upper s) = lower s.
Proof.
  induction s as [|c s IH]; simpl; [reflexivity|].
  unfold upper, lower in *. simpl. now rewrite lower_upper_char, IH.
Qed.

Lemma lower_lower (s : string) : lower (lower s) = lower s.
Proof.
  induction s as [|c s IH]; simpl; [reflexivity|].
  unfold lower in *. simpl. now rewrite lower_lower_char, IH.
Qed.

(** Two texts that differ by letter case only have the same upper case. *)
Lemma same_lower_same_upper (s t : string) : lower s = lower t -> upper s = upper t.
Proof. intros H. rewrite <- (upper_lower s), <- (upper_lower t). now rewrite H. Qed.

Lemma prefix_iff (p s : string) :
  String.prefix p s = true <-> exists t, s = p ++ t.
Proof.
  revert s. induction p as [|a p IH]; intros s.
  - destruct s; simpl; split; intros; try reflexivity; eexists; reflexivity.
  - destruct s as [|b s]; simpl.
    + split; [discriminate | intros [t H]; discriminate].
    + destruct (Ascii.ascii_dec a b) as [->|Hne].
      * split.
        -- intros H. apply IH in H. destruct H as [t ->]. now exists t.
        -- intros [t H]. apply IH. exists t. now inversion H.
      * split; [discriminate | intros [t H]; inversion H; congruence].
Qed.

Lemma startswith_iff (s p : string) :
  startswith s p = true <-> exists t, s = p ++ t.
Proof. apply prefix_iff. Qed.

Lemma contains_iff (s p : string) :
  contains s p = true <-> exists a b, s = a ++ p ++ b.
Proof.
  induction s as [|c s IH].
  - cbn [contains]. rewrite orb_false_r, prefix_iff. split.
    + intros [t H]. exists "", t. exact H.
    + intros [a [b H]]. destruct a; [exists b; exact H | discriminate].
  - cbn [contains]. rewrite orb_true_iff, prefix_iff, IH. split.
    + intros [[t H] | [a [b H]]].
      * exists "", t. exact H.
      * exists (String c a), b. simpl. now rewrite H.
    + intros [a [b H]]. destruct a as [|x a].
      * left. exists b. exact H.
      * right. simpl in H. inversion H. now exists a, b.
Qed.

Lemma endswith_iff (s p : string) :
  endswith s p = true <-> exists a, s = a ++ p.
Proof.
  induction s as [|c s IH].
  - cbn [endswith]. rewrite orb_false_r, String.eqb_eq. split.
    + intros <-. now exists "".
    + intros [a H]. destruct a; [exact H | discriminate].
  - cbn [endswith]. rewrite orb_true_iff, String.eqb_eq, IH. split.
    + intros [H | [a H]].
      * now exists "".
      * exists (String c a). simpl. now rewrite H.
    + intros [a H]. destruct a as [|x a].
      * now left.
      * right. simpl in H. inversion H. now exists a.
Qed.

Lemma eq_str_iff (v : value) (s : string) : eq_str v s = true <-> v = VStr s.
Proof.
  destruct v; simpl; try (split; [discriminate | intros H; discriminate]).
  rewrite String.eqb_eq. split; [now intros -> | now inversion 1].
Qed.

Lemma lower_empty (p : string) : lower p = "" <-> p = "".
Proof. destruct p; simpl; split; intros H; try reflexivity; discriminate. Qed.

Lemma truthy_str (p : string) : truthy (VStr p) = true <-> p <> "".
Proof.
  simpl. destruct (String.eqb_spec p ""); simpl; split; intros H;
    try reflexivity; try discriminate; try assumption; contradiction.
Qed.

(** A name that holds CANCELLED in some letter case is recognised. *)
Lemma cancelled_recognised (n a w b : string) :
  n = a ++ w ++ b -> lower w = "cancelled" ->
  contains (upper n) "CANCELLED" = true.
Proof.
  intros -> Hw. apply contains_iff.
  exists (upper a), (upper b). unfold upper. rewrite !map_string_app.
  f_equal. f_equal. change (upper w = upper "cancelled").
  apply same_lower_same_upper. rewrite Hw. reflexivity.
Qed.

(** ** The exception monad *)

Lemma bind_ok {A B : Type} (m : result A) (k : A -> result B) (b : B) :
  bind m k = Ok b -> exists a, m = Ok a /\ k a = Ok b.
Proof. destruct m as [a|e]; simpl; intros H; [now exists a | discriminate]. Qed.

Lemma py_get_ok (v : value) (k : string) (default x : value) :
  py_get v k default = Ok x -> exists d, v = VDict d /\ x = dict_get d k default.
Proof. destruct v; simpl; intros H; try discriminate. inversion H. now eexists. Qed.

Ltac bind_inv H :=
  let a := fresh "a" in
  let Ha := fresh "Ha" in
  apply bind_ok in H; destruct H as [a [Ha H]].

(** ** What a successful [transform_event] returns *)

Lemma transform_event_inv (rt : runtime) (event org_config : value)
    (out : normalized_event) :
  transform_event rt event org_config = Ok out ->
  exists d combined,
    event = VDict d /\
    collect_tags rt event org_config = Ok combined /\
    py_list_set combined = Ok (tags out) /\
    spots_of event = Ok (spotsAvailable out) /\
    event_url_of event (dict_get d "Id" VNone) = Ok (url out) /\
    isFull out =
      (if is_none (spotsAvailable out) then false else eq_zero (spotsAvailable out)) /\
    name out = dict_get d "Name" (VStr "") /\
    id_ out = dict_get d "Id" VNone.
Proof.
  unfold transform_event. intros H.
  bind_inv H. rename a into combined, Ha into Hc.
  bind_inv H. rename a into all_tags, Ha into Hs.
  bind_inv H. rename a into spots, Ha into Hsp.
  bind_inv H. apply py_get_ok in Ha. destruct Ha as [d [-> ->]].
  bind_inv H. rename a into u, Ha into Hu.
  simpl in H. destruct (description_of (VDict d)) as [ds|]; simpl in H;
    [|discriminate].
  inversion H; subst out; clear H. simpl.
  exists d, combined. repeat split; assumption.
Qed.

(** ** The loop of [sync_events] *)

Lemma transform_loop_skip (rt : runtime) (cfg : value) (e : dict) (n : string) :
  lookup "Name" e = Some (VStr n) ->
  contains (upper n) "CANCELLED" = true ->
  forall pre post acc log,
    transform_loop rt cfg (pre ++ VDict e :: post) acc log =
    transform_loop rt cfg (pre ++ post) acc log.
Proof.
  intros Hn Hc pre. induction pre as [|x pre IH]; intros post acc log.
  - cbn [app transform_loop py_get bind]. unfold dict_get. rewrite Hn.
    cbn [py_upper bind]. now rewrite Hc.
  - cbn [app transform_loop].
    destruct (py_get x "Name" (VStr "")) as [v|]; cbn [bind]; [|reflexivity].
    destruct (py_upper v) as [u|]; cbn [bind]; [|reflexivity].
    destruct (contains u "CANCELLED"); [apply IH|].
    destruct (transform_event rt x cfg); [apply IH|].
    destruct (py_get x "Id" VNone); cbn [bind]; [apply IH | reflexivity].
Qed.

(** No event of the output carries a cancelled name. *)
Lemma transform_loop_names (rt : runtime) (cfg : value) (raw : list value) :
  forall acc log evs log',
    transform_loop rt cfg raw acc log = Ok (evs, log') ->
    Forall (fun t => exists m, name t = VStr m /\
                               contains (upper m) "CANCELLED" = false) acc ->
    Forall (fun t => exists m, name t = VStr m /\
                               contains (upper m) "CANCELLED" = false) evs.
Proof.
  induction raw as [|x raw IH]; intros acc log evs log' H Hacc.
  - cbn in H. inversion H. now subst.
  - cbn [transform_loop] in H.
    bind_inv H. apply py_get_ok in Ha. destruct Ha as [d [-> ->]].
    bind_inv H. rename a into u.
    destruct (dict_get d "Name" (VStr "")) as [| | |m| |] eqn:Hn;
      try discriminate.
    cbn in Ha. inversion Ha; subst u; clear Ha.
    destruct (contains (upper m) "CANCELLED") eqn:Hc.
    + now apply (IH _ _ _ _ H).
    + destruct (transform_event rt (VDict d) cfg) as [t|e] eqn:Ht.
      * apply (IH _ _ _ _ H). apply Forall_app. split; [assumption|].
        constructor; [|constructor].
        apply transform_event_inv in Ht.
        destruct Ht as [d' [c [Hd [_ [_ [_ [_ [_ [Hname _]]]]]]]]].
        inversion Hd; subst d'. exists m. split; [congruence | assumption].
      * bind_inv H. now apply (IH _ _ _ _ H).
Qed.

(** When every name is a [str] or absent the loop runs to its end: an event
    whose transformation raises costs one warning and nothing else. *)
Lemma transform_loop_total (rt : runtime) (cfg : value) (raw : list value) :
  Forall well_named raw ->
  forall acc log, exists evs log', transform_loop rt cfg raw acc log = Ok (evs, log').
Proof.
  induction 1 as [|x raw Hx _ IH]; intros acc log.
  - now exists acc, log.
  - destruct Hx as [d [-> Hn]]. cbn [transform_loop py_get bind].
    assert (Hu : exists u, py_upper (dict_get d "Name" (VStr "")) = Ok u).
    { unfold dict_get. destruct Hn as [-> | [n ->]]; eexists; reflexivity. }
    destruct Hu as [u ->]. cbn [bind].
    destruct (contains u "CANCELLED"); [apply IH|].
    destruct (transform_event rt (VDict d) cfg); [apply IH | apply IH].
Qed.

(** An event whose name is present and is not a [str] stops the loop, and
    with it the run, wherever it stands in the fetched list. *)
Lemma transform_loop_aborts (rt : runtime) (cfg : value) (e : dict) (v : value) :
  lookup "Name" e = Some v ->
  (forall s, v <> VStr s) ->
  forall pre, Forall well_named pre ->
  forall post acc log,
    transform_loop rt cfg (pre ++ VDict e :: post) acc log = Raise AttributeError.
Proof.
  intros Hv Hns pre Hpre. induction Hpre as [|x pre Hx _ IH]; intros post acc log.
  - cbn [app transform_loop py_get bind]. unfold dict_get. rewrite Hv.
    destruct v; try reflexivity. exfalso. now apply (Hns s).
  - destruct Hx as [d [-> Hn]]. cbn [app transform_loop py_get bind].
    assert (Hu : exists u, py_upper (dict_get d "Name" (VStr "")) = Ok u).
    { unfold dict_get. destruct Hn as [-> | [n ->]]; eexists; reflexivity. }
    destruct Hu as [u ->]. cbn [bind].
    destruct (contains u "CANCELLED"); [apply IH|].
    destruct (transform_event rt (VDict d) cfg); [apply IH | apply IH].
Qed.

(** With credentials, a configuration, a fetched list in which every name
    is a [str] or absent, and a storage backend that accepts the document,
    the run reports success whatever the transformations raise. *)
Lemma sync_events_succeeds (rt : runtime) (env : sync_env) (cfg : value)
    (raw : list value) :
  account_id env <> "" -> api_key env <> "" ->
  load_config env = Ok cfg ->
  get_events env = Ok raw ->
  Forall well_named raw ->
  (forall out, exists u, save_events env out = Ok u) ->
  exists r out log,
    sync_events rt env = Ok (r, out, log) /\ success r = true /\
    result_eventCount r = List.length (events out).
Proof.
  intros Ha Hk Hcfg Hraw Hwn Hsave. unfold sync_events.
  apply truthy_str in Ha. apply truthy_str in Hk. rewrite Ha, Hk.
  cbn [negb orb]. rewrite Hcfg, Hraw. cbn [bind].
  destruct (transform_loop_total rt cfg raw Hwn [] []) as [evs [log ->]].
  cbn [bind fst snd].
  match goal with |- context [save_events env ?o] =>
    destruct (Hsave o) as [u ->] end.
  cbn [bind]. do 3 eexists. split; [reflexivity | split; reflexivity].
Qed.

(** ** Claims on the Sync Orchestrator *)

(** An event that fails inside [transform_event] (here: source tags that are
    a number) is dropped with one warning, and the run succeeds with the
    other event. *)
Example failing_transform_is_skipped :
  exists r out,
    sync_events reference_runtime
      (sample_env [VDict [("Id", VInt 1); ("Name", VStr "Picnic"); ("Tags", VInt 5)];
                   VDict [("Id", VInt 2); ("Name", VStr "Hike")]])
    = Ok (r, out, [mk_warning (VInt 1) TypeError]) /\
    success r = true /\ result_eventCount r = 1%nat /\
    map id_ (events out) = [VInt 2].
Proof. eexists. eexists. split; [vm_compute; reflexivity | repeat split]. Qed.

(** C1, at the input where the code departs from it: the name of the first
    event is JSON null.  [name.upper()] is evaluated before the [try]
    block, so the AttributeError leaves [sync_events]: nothing is saved and
    no result is returned, although the second event is valid. *)
Theorem sync_events_aborts_on_null_name :
  sync_events reference_runtime
    (sample_env [VDict [("Id", VInt 1); ("Name", VNone)];
                 VDict [("Id", VInt 2); ("Name", VStr "Hike")]])
  = Raise AttributeError.
Proof. vm_compute. reflexivity. Qed.

(** C7: an event whose name holds CANCELLED in any letter case, anywhere,
    leaves no trace in the run: the run is the one of the same fetch
    without that event; no event of the output document bears such a name;
    and [eventCount] counts exactly the events of the document. *)
Theorem cancelled_events_excluded (rt : runtime) (env : sync_env)
    (pre post : list value) (e : dict) (n a w b : string) :
  get_events env = Ok (pre ++ VDict e :: post)%list ->
  lookup "Name" e = Some (VStr n) ->
  n = a ++ w ++ b ->
  lower w = "cancelled" ->
  sync_events rt env = sync_events rt (with_events env (pre ++ post)%list) /\
  (forall r out log, sync_events rt env = Ok (r, out, log) ->
     eventCount out = List.length (events out) /\
     result_eventCount r = eventCount out /\
     forall t m a' w' b', In t (events out) -> name t = VStr m ->
       m = a' ++ w' ++ b' -> lower w' <> "cancelled").
Proof.
  intros Hg Hn Hsplit Hw.
  pose proof (cancelled_recognised n a w b Hsplit Hw) as Hc.
  split.
  - unfold sync_events, with_events. cbn [account_id api_key load_config
      get_events utcnow_isoformat save_events org_id].
    destruct (negb (truthy (VStr (account_id env))) ||
              negb (truthy (VStr (api_key env)))); [reflexivity|].
    destruct (load_config env) as [cfg|]; cbn [bind]; [|reflexivity].
    rewrite Hg. cbn [bind].
    now rewrite (transform_loop_skip rt cfg e n Hn Hc).
  - intros r out log H. unfold sync_events in H.
    destruct (negb (truthy (VStr (account_id env))) ||
              negb (truthy (VStr (api_key env)))); [discriminate|].
    apply bind_ok in H. destruct H as [cfg [_ H]].
    apply bind_ok in H. destruct H as [raw [_ H]].
    apply bind_ok in H. destruct H as [[evs log0] [Hloop H]].
    apply bind_ok in H. destruct H as [u [_ H]].
    inversion H as [[Hr Ho Hl]]. cbn.
    repeat split.
    intros t m a' w' b' Hin Hm Hs' Hw'.
    pose proof (transform_loop_names rt cfg raw [] [] evs log0 Hloop
                  (Forall_nil _)) as Hall.
    rewrite Forall_forall in Hall. destruct (Hall t Hin) as [m' [Hm' Hc']].
    rewrite Hm in Hm'. inversion Hm'; subst m'.
    rewrite (cancelled_recognised m a' w' b' Hs' Hw') in Hc'. discriminate.
Qed.

Lemma cancelled_events_excluded_witness :
  let raw := [VDict [("Id", VInt 1); ("Name", VStr "Trip to the coast")];
              VDict [("Id", VInt 2); ("Name", VStr "Wine tasting (Cancelled)")];
              VDict [("Id", VInt 3); ("Name", VStr "Hike")]] in
  sync_events reference_runtime (sample_env raw) =
  sync_events reference_runtime
    (with_events (sample_env raw)
       ([VDict [("Id", VInt 1); ("Name", VStr "Trip to the coast")]] ++
        [VDict [("Id", VInt 3); ("Name", VStr "Hike")]])%list).
Proof.
  exact (proj1 (cancelled_events_excluded reference_runtime
    (sample_env [VDict [("Id", VInt 1); ("Name", VStr "Trip to the coast")];
                 VDict [("Id", VInt 2); ("Name", VStr "Wine tasting (Cancelled)")];
                 VDict [("Id", VInt 3); ("Name", VStr "Hike")]])
    [VDict [("Id", VInt 1); ("Name", VStr "Trip to the coast")]]
    [VDict [("Id", VInt 3); ("Name", VStr "Hike")]]
    [("Id", VInt 2); ("Name", VStr "Wine tasting (Cancelled)")]
    "Wine tasting (Cancelled)" "Wine tasting (" "Cancelled" ")"
    eq_refl eq_refl eq_refl eq_refl)).
Defined.

(** ** Claims on the Tag Rule Evaluator *)

(** One turn of the loop against the specification. *)
Lemma rule_step_spec (str_lower : string -> string) (name : string) (d : dict)
    (p : string) :
  keeps_emptiness str_lower ->
  dict_get d "pattern" (VStr "") = VStr p ->
  (exists tag, rule_step str_lower (str_lower name) (VDict d) = Ok [tag] /\
               rule_matches str_lower name d tag) \/
  (rule_step str_lower (str_lower name) (VDict d) = Ok [] /\
   forall tag, ~ rule_matches str_lower name d tag).
Proof.
  intros Hkeep Hp. unfold rule_step. cbn [py_get bind]. rewrite Hp.
  cbn [py_lower bind].
  destruct (truthy (VStr (str_lower p))) eqn:Hpat; cbn [negb orb].
  2:{ right. split; [reflexivity|].
      intros tag [q [Hq [Hne _]]]. rewrite Hp in Hq. inversion Hq; subst q.
      apply Hne. apply Hkeep.
      cbn [truthy] in Hpat. apply negb_false_iff in Hpat.
      now apply String.eqb_eq in Hpat. }
  apply truthy_str in Hpat.
  assert (Hpne : p <> "").
  { intros Hempty. apply Hpat. now apply Hkeep. }
  destruct (truthy (dict_get d "tag" VNone)) eqn:Htag; cbn [negb].
  2:{ right. split; [reflexivity|].
      intros tag [q [_ [_ [-> [Ht _]]]]]. congruence. }
  set (ty := dict_get d "type" VNone).
  assert (Hmatch : forall b : bool,
    (b = true <-> ((ty = VStr "name-prefix" /\
                    exists t, str_lower name = str_lower p ++ t) \/
                   (ty = VStr "name-contains" /\
                    exists a b, str_lower name = a ++ str_lower p ++ b) \/
                   (ty = VStr "name-suffix" /\
                    exists a, str_lower name = a ++ str_lower p))) ->
    (exists tag, Ok (if b then [dict_get d "tag" VNone] else []) = Ok [tag] /\
                 rule_matches str_lower name d tag) \/
    (Ok (if b then [dict_get d "tag" VNone] else []) = Ok (@nil value) /\
     forall tag, ~ rule_matches str_lower name d tag)).
  { intros b Hb. destruct b.
    - left. exists (dict_get d "tag" VNone). split; [reflexivity|].
      exists p. repeat split; try assumption. now apply Hb.
    - right. split; [reflexivity|].
      intros tag [q [Hq [_ [_ [_ Hcases]]]]]. rewrite Hp in Hq.
      inversion Hq; subst q. apply (proj2 Hb) in Hcases. discriminate. }
  apply Hmatch. clear Hmatch.
  destruct (eq_str ty "name-prefix") eqn:E1.
  { apply eq_str_iff in E1. rewrite startswith_iff. split.
    - intros H. now left.
    - intros [[_ H] | [[H _] | [H _]]]; [assumption | congruence | congruence]. }
  destruct (eq_str ty "name-contains") eqn:E2.
  { apply eq_str_iff in E2. rewrite contains_iff. split.
    - intros H. right. now left.
    - intros [[H _] | [[_ H] | [H _]]]; [congruence | assumption | congruence]. }
  destruct (eq_str ty "name-suffix") eqn:E3.
  { apply eq_str_iff in E3. rewrite endswith_iff. split.
    - intros H. right. now right.
    - intros [[H _] | [[H _] | [_ H]]]; [congruence | congruence | assumption]. }
  split; [discriminate|].
  intros [[H _] | [[H _] | [H _]]]; apply eq_str_iff in H; congruence.
Qed.

Lemma auto_tags_loop_spec (str_lower : string -> string) (name : string)
    (rules : list value) :
  keeps_emptiness str_lower ->
  Forall well_formed_rule rules ->
  forall acc, exists tags,
    auto_tags_loop str_lower (str_lower name) rules acc = Ok (acc ++ tags)%list /\
    emitted str_lower name rules tags.
Proof.
  intros Hkeep. induction 1 as [|r rules Hr _ IH]; intros acc.
  - exists []. split; [cbn; now rewrite app_nil_r | constructor].
  - destruct Hr as [d [p [-> Hp]]]. cbn [auto_tags_loop].
    destruct (rule_step_spec str_lower name d p Hkeep Hp)
      as [[tag [-> Hm]] | [-> Hno]]; cbn [bind].
    + destruct (IH (acc ++ [tag])%list) as [tags [-> He]].
      exists (tag :: tags). split; [now rewrite <- app_assoc | now constructor].
    + destruct (IH (acc ++ [])%list) as [tags [-> He]].
      exists tags. split; [now rewrite app_nil_r | now constructor].
Qed.

(** A rule may be exchanged for one that does the same in its turn. *)
Lemma auto_tags_loop_exchange (str_lower : string -> string)
    (event_name : string) (rule rule' : value) :
  rule_step str_lower event_name rule = rule_step str_lower event_name rule' ->
  forall pre post acc,
    auto_tags_loop str_lower event_name (pre ++ rule :: post) acc =
    auto_tags_loop str_lower event_name (pre ++ rule' :: post) acc.
Proof.
  intros Hr pre. induction pre as [|x pre IH]; intros post acc.
  - cbn [app auto_tags_loop]. now rewrite Hr.
  - cbn [app auto_tags_loop].
    destruct (rule_step str_lower event_name x); cbn [bind];
      [apply IH | reflexivity].
Qed.

(** A rule that emits nothing may be taken out of the list. *)
Lemma auto_tags_loop_drop (str_lower : string -> string) (event_name : string)
    (rule : value) :
  rule_step str_lower event_name rule = Ok [] ->
  forall pre post acc,
    auto_tags_loop str_lower event_name (pre ++ rule :: post) acc =
    auto_tags_loop str_lower event_name (pre ++ post) acc.
Proof.
  intros Hr pre. induction pre as [|x pre IH]; intros post acc.
  - cbn [app auto_tags_loop]. rewrite Hr. cbn [bind]. now rewrite app_nil_r.
  - cbn [app auto_tags_loop].
    destruct (rule_step str_lower event_name x); cbn [bind];
      [apply IH | reflexivity].
Qed.

Example apply_auto_tags_example :
  apply_auto_tags lower
    (VDict [("Name", VStr "Happy Hikers: Wine Walk")])
    (VList [VDict [("type", VStr "name-contains"); ("pattern", VStr "WINE");
                   ("tag", VStr "wine")];
            VDict [("type", VStr "name-prefix"); ("pattern", VStr "happy hikers");
                   ("tag", VStr "hiking")];
            VDict [("type", VStr "name-suffix"); ("pattern", VStr "Walk");
                   ("tag", VStr "outdoors")];
            VDict [("type", VStr "name-prefix"); ("pattern", VStr "");
                   ("tag", VStr "everything")];
            VDict [("type", VStr "name-contains"); ("pattern", VStr "wine")];
            VDict [("type", VStr "name-regex"); ("pattern", VStr "wine");
                   ("tag", VStr "regex")];
            VDict [("type", VStr "name-prefix"); ("pattern", VStr "wine");
                   ("tag", VStr "starts-with-wine")]])
  = Ok [VStr "wine"; VStr "hiking"; VStr "outdoors"].
Proof. reflexivity. Qed.

(** C6: on a rule list of the configuration, the Tag Rule Evaluator raises
    nothing and returns the tags of the matching rules in rule-list order,
    where matching is starts-with, substring or ends-with by rule type, on
    the lower case forms of the name and of the pattern as [str.lower]
    gives them, whatever the text; the result does not change with the
    letter case of the name nor with that of a pattern; a rule with an
    empty pattern, an empty tag or any other type contributes nothing; and
    on a name and patterns in mixed case the tags are those of the three
    matching rules, in order. *)
Theorem tag_rule_evaluator_spec (str_lower : string -> string) (d : dict)
    (name : string) (rules : list value) :
  keeps_emptiness str_lower ->
  dict_get d "Name" (VStr "") = VStr name ->
  Forall well_formed_rule rules ->
  (exists tags,
     apply_auto_tags str_lower (VDict d) (VList rules) = Ok tags /\
     emitted str_lower name rules tags) /\
  (forall d' name',
     dict_get d' "Name" (VStr "") = VStr name' ->
     str_lower name' = str_lower name ->
     apply_auto_tags str_lower (VDict d') (VList rules) =
     apply_auto_tags str_lower (VDict d) (VList rules)) /\
  (forall pre post rule rule' p p',
     rules = (pre ++ VDict rule :: post)%list ->
     dict_get rule "pattern" (VStr "") = VStr p ->
     dict_get rule' "pattern" (VStr "") = VStr p' ->
     str_lower p' = str_lower p ->
     dict_get rule' "type" VNone = dict_get rule "type" VNone ->
     dict_get rule' "tag" VNone = dict_get rule "tag" VNone ->
     apply_auto_tags str_lower (VDict d) (VList (pre ++ VDict rule' :: post)%list) =
     apply_auto_tags str_lower (VDict d) (VList rules)) /\
  (forall pre post rule,
     rules = (pre ++ VDict rule :: post)%list ->
     dict_get rule "pattern" (VStr "") = VStr "" \/
     truthy (dict_get rule "tag" VNone) = false \/
     ~ recognised_type (dict_get rule "type" VNone) ->
     apply_auto_tags str_lower (VDict d) (VList rules) =
     apply_auto_tags str_lower (VDict d) (VList (pre ++ post)%list)) /\
  (keeps_emptiness lower /\
   apply_auto_tags lower
     (VDict [("Name", VStr "Happy Hikers: Wine Walk")])
     (VList [VDict [("type", VStr "name-contains"); ("pattern", VStr "WINE");
                    ("tag", VStr "wine")];
             VDict [("type", VStr "name-prefix");
                    ("pattern", VStr "happy hikers"); ("tag", VStr "hiking")];
             VDict [("type", VStr "name-suffix"); ("pattern", VStr "Walk");
                    ("tag", VStr "outdoors")];
             VDict [("type", VStr "name-prefix"); ("pattern", VStr "wine");
                    ("tag", VStr "starts-with-wine")]])
   = Ok [VStr "wine"; VStr "hiking"; VStr "outdoors"]).
Proof.
  intros Hkeep Hname Hwf.
  assert (Happly : forall d0 n0 rs, dict_get d0 "Name" (VStr "") = VStr n0 ->
            apply_auto_tags str_lower (VDict d0) (VList rs) =
            auto_tags_loop str_lower (str_lower n0) rs []).
  { intros d0 n0 rs H0. unfold apply_auto_tags. cbn [py_get bind].
    rewrite H0. reflexivity. }
  split; [|split; [|split; [|split]]].
  - rewrite (Happly d name rules Hname).
    destruct (auto_tags_loop_spec str_lower name rules Hkeep Hwf [])
      as [tags [Ht He]].
    exists tags. split; assumption.
  - intros d' name' Hname' Hcase.
    rewrite (Happly d name rules Hname), (Happly d' name' rules Hname').
    now rewrite Hcase.
  - intros pre post rule rule' p p' -> Hp Hp' Hcase Hty Htag.
    rewrite !(Happly d name _ Hname).
    apply auto_tags_loop_exchange.
    unfold rule_step. cbn [py_get bind]. rewrite Hp, Hp', Hty, Htag.
    cbn [py_lower bind]. now rewrite Hcase.
  - intros pre post rule -> Hskip.
    rewrite !(Happly d name _ Hname).
    apply auto_tags_loop_drop.
    apply Forall_app in Hwf. destruct Hwf as [_ Hwf].
    inversion Hwf as [|x l [r [p [Hr Hp]]] _]; subst. inversion Hr; subst r.
    destruct (rule_step_spec str_lower name rule p Hkeep Hp)
      as [[tag [_ Hm]] | [Hno _]]; [exfalso | exact Hno].
    destruct Hm as [q [Hq [Hne [Htag [Htruthy Hty]]]]].
    destruct Hskip as [Hempty | [Hfalsy | Hunknown]].
    + rewrite Hq in Hempty. inversion Hempty. contradiction.
    + rewrite <- Htag in Hfalsy. congruence.
    + apply Hunknown. unfold recognised_type.
      destruct Hty as [[H _] | [[H _] | [H _]]]; auto.
  - split; [exact lower_empty | reflexivity].
Qed.

Lemma tag_rule_evaluator_spec_witness :
  let rules :=
    [VDict [("type", VStr "name-contains"); ("pattern", VStr "WINE");
            ("tag", VStr "wine")];
     VDict [("type", VStr "name-regex"); ("pattern", VStr "wine");
            ("tag", VStr "regex")]] in
  exists tags,
    apply_auto_tags lower
      (VDict [("Name", VStr "Happy Hikers: Wine Walk")]) (VList rules) = Ok tags /\
    emitted lower "Happy Hikers: Wine Walk" rules tags /\
    tags = [VStr "wine"].
Proof.
  intros rules.
  assert (Hwf : Forall well_formed_rule rules).
  { repeat constructor.
    - exists [("type", VStr "name-contains"); ("pattern", VStr "WINE");
              ("tag", VStr "wine")], "WINE". split; reflexivity.
    - exists [("type", VStr "name-regex"); ("pattern", VStr "wine");
              ("tag", VStr "regex")], "wine". split; reflexivity. }
  destruct (proj1 (tag_rule_evaluator_spec lower
              [("Name", VStr "Happy Hikers: Wine Walk")]
              "Happy Hikers: Wine Walk" rules lower_empty eq_refl Hwf))
    as [tags [Hrun Hem]].
  exists tags. split; [exact Hrun | split; [exact Hem|]].
  vm_compute in Hrun. now inversion Hrun.
Defined.

(** ** Claims on the Field Deriver *)

(** No limit, or a limit of zero: the confirmed count is not looked at. *)
Lemma derive_availability_open (d : dict) :
  dict_get d "RegistrationsLimit" VNone = VNone \/
  dict_get d "RegistrationsLimit" VNone = VInt 0 ->
  derive_availability (VDict d) = Ok "availability:open".
Proof.
  intros [H | H]; unfold derive_availability; cbn [py_get bind];
    rewrite H; reflexivity.
Qed.

(** C4: the availability tag is [availability:open] when the capacity limit
    is null, unset or zero; otherwise, with spots = limit - confirmed, it is
    [availability:full] when spots <= 0, [availability:limited] when
    0 < spots <= 5 and [availability:open] when spots > 5; with the five
    cases the specification lists and an event that has no limit field. *)
Theorem derive_availability_spec :
  (forall d : dict,
     dict_get d "RegistrationsLimit" VNone = VNone \/
     dict_get d "RegistrationsLimit" VNone = VInt 0 ->
     derive_availability (VDict d) = Ok "availability:open") /\
  (forall (d : dict) (limit confirmed : Z),
     dict_get d "RegistrationsLimit" VNone = VInt limit ->
     limit <> 0 ->
     dict_get d "ConfirmedRegistrationsCount" (VInt 0) = VInt confirmed ->
     let spots := limit - confirmed in
     (spots <= 0 -> derive_availability (VDict d) = Ok "availability:full") /\
     (0 < spots <= 5 ->
      derive_availability (VDict d) = Ok "availability:limited") /\
     (5 < spots -> derive_availability (VDict d) = Ok "availability:open")) /\
  derive_availability (VDict [("RegistrationsLimit", VNone)])
    = Ok "availability:open" /\
  derive_availability (VDict []) = Ok "availability:open" /\
  derive_availability (VDict [("RegistrationsLimit", VInt 0)])
    = Ok "availability:open" /\
  derive_availability (VDict [("RegistrationsLimit", VInt 10);
                              ("ConfirmedRegistrationsCount", VInt 10)])
    = Ok "availability:full" /\
  derive_availability (VDict [("RegistrationsLimit", VInt 10);
                              ("ConfirmedRegistrationsCount", VInt 6)])
    = Ok "availability:limited" /\
  derive_availability (VDict [("RegistrationsLimit", VInt 10);
                              ("ConfirmedRegistrationsCount", VInt 3)])
    = Ok "availability:open".
Proof.
  split; [|split; [|repeat split]].
  - exact derive_availability_open.
  - intros d limit confirmed Hl Hne Hc spots.
    unfold derive_availability. cbn [py_get bind]. rewrite Hl, Hc.
    cbn [is_none eq_zero as_int orb py_sub bind].
    destruct (Z.eqb_spec limit 0) as [|_]; [contradiction|].
    fold spots. repeat split; intros H.
    + destruct (Z.leb_spec spots 0); [reflexivity | lia].
    + destruct (Z.leb_spec spots 0); [lia|].
      destruct (Z.leb_spec spots 5); [reflexivity | lia].
    + destruct (Z.leb_spec spots 0); [lia|].
      destruct (Z.leb_spec spots 5); [lia | reflexivity].
Qed.

Lemma derive_availability_spec_witness :
  derive_availability (VDict [("RegistrationsLimit", VInt 8);
                              ("ConfirmedRegistrationsCount", VInt 5)])
    = Ok "availability:limited".
Proof.
  apply (proj1 (proj2 (proj1 (proj2 derive_availability_spec)
           [("RegistrationsLimit", VInt 8); ("ConfirmedRegistrationsCount", VInt 5)]
           8 5 eq_refl ltac:(lia) eq_refl))).
  cbv zeta. lia.
Defined.

Lemma raises_caught_bind {A B : Type} (m : result A) (k : A -> result B) :
  raises_caught m -> (forall a, raises_caught (k a)) -> raises_caught (bind m k).
Proof.
  intros Hm Hk e. destruct m as [a|e']; cbn [bind].
  - apply Hk.
  - intros H. inversion H; subst. now apply Hm.
Qed.

Lemma raises_caught_ok {A : Type} (a : A) : raises_caught (Ok a).
Proof. intros e H. discriminate. Qed.

Lemma raises_caught_py_get (v : value) (k : string) (dflt : value) :
  raises_caught (py_get v k dflt).
Proof.
  intros e. destruct v; cbn; intros H; try discriminate;
    inversion H; unfold caught; auto.
Qed.

Lemma raises_caught_py_int_lt (h : Z) (v : value) : raises_caught (py_int_lt h v).
Proof.
  intros e. unfold py_int_lt. destruct (as_int v); intros H;
    [discriminate | inversion H; unfold caught; auto].
Qed.

Lemma raises_caught_parse_start (f : iso_parser) (v : value) :
  raises_caught (parse_start f v).
Proof.
  intros e. destruct v; cbn; try (intros H; inversion H; unfold caught; now auto).
  destruct (f (replace_Z s)); intros H; [discriminate|].
  inversion H. unfold caught. auto.
Qed.

Lemma try_except_total {A : Type} (m : result A) (h : A) :
  raises_caught m ->
  exists r, try_except m [ValueError; AttributeError; TypeError] h = Ok r.
Proof.
  intros Hm. destruct m as [a|e]; cbn.
  - now exists a.
  - destruct (Hm e eq_refl) as [-> | [-> | ->]]; cbn; now exists h.
Qed.

Lemma replace_Z_app (a b : string) :
  replace_Z (a ++ b) = replace_Z a ++ replace_Z b.
Proof.
  induction a as [|c a IH]; cbn [append replace_Z]; [reflexivity|].
  rewrite IH. destruct (Ascii.eqb c "Z"); reflexivity.
Qed.

Lemma derive_time_of_day_total (f : iso_parser) (start_date_str config : value) :
  exists r, derive_time_of_day f start_date_str config = Ok r.
Proof.
  unfold derive_time_of_day. apply try_except_total.
  apply raises_caught_bind; [apply raises_caught_parse_start | intros dt].
  apply raises_caught_bind.
  { unfold time_config_of.
    repeat (apply raises_caught_bind; [apply raises_caught_py_get | intros ?]).
    apply raises_caught_py_get. }
  intros tc.
  apply raises_caught_bind.
  { unfold before_of.
    apply raises_caught_bind; [apply raises_caught_py_get | intros ?].
    apply raises_caught_py_get. }
  intros mb.
  apply raises_caught_bind.
  { unfold before_of.
    apply raises_caught_bind; [apply raises_caught_py_get | intros ?].
    apply raises_caught_py_get. }
  intros ab.
  apply raises_caught_bind; [apply raises_caught_py_int_lt | intros b1].
  destruct b1; [apply raises_caught_ok|].
  apply raises_caught_bind; [apply raises_caught_py_int_lt | intros b2].
  destruct b2; apply raises_caught_ok.
Qed.

Lemma section_of_get (d : dict) (snake camel : string) (sec : dict) :
  section_of d snake camel sec ->
  dict_get d snake (dict_get d camel (VDict [])) = VDict sec.
Proof.
  unfold dict_get.
  intros [H | [[Hs Hc] | [Hs [Hc ->]]]].
  - now rewrite H.
  - now rewrite Hs, Hc.
  - now rewrite Hs, Hc.
Qed.

Lemma boundary_of_before (tod : dict) (bucket : string) (default b : Z) :
  boundary_of tod bucket default b ->
  before_of (VDict tod) bucket default = Ok (VInt b).
Proof.
  unfold before_of. cbn [py_get bind]. unfold dict_get.
  intros [[H ->] | [entry [H [Hb | [Hb ->]]]]]; rewrite H; cbn [py_get];
    unfold dict_get; [reflexivity | now rewrite Hb | now rewrite Hb].
Qed.

(** C5: the time-of-day derivation raises nothing, whatever the start value
    and the configuration; it returns no tag when the timestamp does not
    parse; a trailing Z is read as the offset +00:00; for a timestamp that
    parses to hour h it returns [time:morning] when h < mb, [time:afternoon]
    when h < ab and [time:evening] otherwise, where mb and ab are the hours
    the configuration holds under [before] for [morning] and [afternoon]
    in its time-of-day table, under either naming of the keys, and 12 and
    17 where it holds none; with the four cases the specification lists
    and cases of configured boundaries that are not the defaults. *)
Theorem derive_time_of_day_spec (f : iso_parser) (config : value) :
  (forall start_date_str : value,
     exists r, derive_time_of_day f start_date_str config = Ok r) /\
  (forall s : string,
     f (replace_Z s) = None ->
     derive_time_of_day f (VStr s) config = Ok None) /\
  (forall s : string,
     derive_time_of_day f (VStr (s ++ "Z")) config =
     derive_time_of_day f (VStr (s ++ "+00:00")) config) /\
  (forall (s : string) (dt : datetime) (d derived time_of_day : dict)
          (mb ab : Z),
     f (replace_Z s) = Some dt ->
     config = VDict d ->
     section_of d "derived_fields" "derivedFields" derived ->
     section_of derived "time_of_day" "timeOfDay" time_of_day ->
     boundary_of time_of_day "morning" 12 mb ->
     boundary_of time_of_day "afternoon" 17 ab ->
     derive_time_of_day f (VStr s) config =
     Ok (Some (if hour dt <? mb then "time:morning"
               else if hour dt <? ab then "time:afternoon"
               else "time:evening"))) /\
  (forall (s : string) (dt : datetime),
     f (replace_Z s) = Some dt ->
     derive_time_of_day f (VStr s) (VDict []) =
     Ok (Some (if hour dt <? 12 then "time:morning"
               else if hour dt <? 17 then "time:afternoon"
               else "time:evening"))) /\
  (let boundaries :=
     VDict [("derived_fields",
             VDict [("time_of_day",
                     VDict [("morning", VDict [("before", VInt 12)]);
                            ("afternoon", VDict [("from", VInt 12);
                                                 ("before", VInt 17)]);
                            ("evening", VDict [("from", VInt 17)])])])] in
   derive_time_of_day reference_fromisoformat
     (VStr "2024-03-05T09:30:00Z") boundaries = Ok (Some "time:morning") /\
   derive_time_of_day reference_fromisoformat
     (VStr "2024-03-05T14:00:00") boundaries = Ok (Some "time:afternoon") /\
   derive_time_of_day reference_fromisoformat
     (VStr "2024-03-05T20:15:00-08:00") boundaries = Ok (Some "time:evening") /\
   derive_time_of_day reference_fromisoformat
     (VStr "next Tuesday") boundaries = Ok None) /\
  (let early :=
     VDict [("derived_fields",
             VDict [("time_of_day",
                     VDict [("morning", VDict [("before", VInt 9)]);
                            ("afternoon", VDict [("before", VInt 10)])])])] in
   let late :=
     VDict [("derivedFields",
             VDict [("timeOfDay",
                     VDict [("morning", VDict [("before", VInt 15)]);
                            ("afternoon", VDict [("before", VInt 21)])])])] in
   derive_time_of_day reference_fromisoformat
     (VStr "2024-03-05T08:00:00Z") early = Ok (Some "time:morning") /\
   derive_time_of_day reference_fromisoformat
     (VStr "2024-03-05T09:30:00Z") early = Ok (Some "time:afternoon") /\
   derive_time_of_day reference_fromisoformat
     (VStr "2024-03-05T10:00:00Z") early = Ok (Some "time:evening") /\
   derive_time_of_day reference_fromisoformat
     (VStr "2024-03-05T14:00:00Z") late = Ok (Some "time:morning") /\
   derive_time_of_day reference_fromisoformat
     (VStr "2024-03-05T20:15:00Z") late = Ok (Some "time:afternoon") /\
   derive_time_of_day reference_fromisoformat
     (VStr "2024-03-05T21:00:00Z") late = Ok (Some "time:evening")).
Proof.
  assert (Hbuckets : forall s dt d derived time_of_day mb ab,
    f (replace_Z s) = Some dt ->
    section_of d "derived_fields" "derivedFields" derived ->
    section_of derived "time_of_day" "timeOfDay" time_of_day ->
    boundary_of time_of_day "morning" 12 mb ->
    boundary_of time_of_day "afternoon" 17 ab ->
    derive_time_of_day f (VStr s) (VDict d) =
    Ok (Some (if hour dt <? mb then "time:morning"
              else if hour dt <? ab then "time:afternoon"
              else "time:evening"))).
  { intros s dt d derived tod mb ab Hs Hd Ht Hmb Hab.
    unfold derive_time_of_day. cbn [parse_start]. rewrite Hs. cbn [bind].
    assert (Htc : time_config_of (VDict d) = Ok (VDict tod)).
    { unfold time_config_of.
      cbn [py_get bind]. rewrite (section_of_get d _ _ derived Hd).
      cbn [py_get bind]. now rewrite (section_of_get derived _ _ tod Ht). }
    rewrite Htc. cbn [bind].
    rewrite (boundary_of_before tod "morning" 12 mb Hmb). cbn [bind].
    rewrite (boundary_of_before tod "afternoon" 17 ab Hab).
    cbn [bind py_int_lt as_int].
    destruct (hour dt <? mb); [reflexivity|]. cbn [bind].
    destruct (hour dt <? ab); reflexivity. }
  split; [|split; [|split; [|split; [|split; [|split]]]]].
  - intros v. apply derive_time_of_day_total.
  - intros s Hs. unfold derive_time_of_day. cbn [parse_start]. rewrite Hs.
    reflexivity.
  - intros s. unfold derive_time_of_day. cbn [parse_start].
    now rewrite !replace_Z_app.
  - intros s dt d derived tod mb ab Hs -> Hd Ht Hmb Hab.
    exact (Hbuckets s dt d derived tod mb ab Hs Hd Ht Hmb Hab).
  - intros s dt Hs.
    apply (Hbuckets s dt [] [] [] 12 17 Hs).
    + right. right. repeat split.
    + right. right. repeat split.
    + left. split; reflexivity.
    + left. split; reflexivity.
  - cbv zeta. repeat split; vm_compute; reflexivity.
  - cbv zeta. repeat split; vm_compute; reflexivity.
Qed.

Lemma derive_time_of_day_spec_witness :
  derive_time_of_day reference_fromisoformat (VStr "2024-03-05T14:00:00Z")
    (VDict [("derivedFields",
             VDict [("timeOfDay",
                     VDict [("morning", VDict [("before", VInt 11)]);
                            ("afternoon", VDict [("before", VInt 18)])])])])
  = Ok (Some "time:afternoon") /\
  derive_time_of_day reference_fromisoformat (VStr "2024-03-05T11:00:00Z")
    (VDict [("derived_fields",
             VDict [("time_of_day",
                     VDict [("morning", VDict [("before", VInt 11)])])])])
  = Ok (Some "time:afternoon").
Proof.
  split.
  - refine (proj1 (proj2 (proj2 (proj2 (derive_time_of_day_spec
      reference_fromisoformat
      (VDict [("derivedFields",
               VDict [("timeOfDay",
                       VDict [("morning", VDict [("before", VInt 11)]);
                              ("afternoon", VDict [("before", VInt 18)])])])])))))
      "2024-03-05T14:00:00Z" (mk_datetime 2024 3 5 14 0 0)
      [("derivedFields",
        VDict [("timeOfDay",
                VDict [("morning", VDict [("before", VInt 11)]);
                       ("afternoon", VDict [("before", VInt 18)])])])]
      [("timeOfDay",
        VDict [("morning", VDict [("before", VInt 11)]);
               ("afternoon", VDict [("before", VInt 18)])])]
      [("morning", VDict [("before", VInt 11)]);
       ("afternoon", VDict [("before", VInt 18)])]
      11 18 eq_refl eq_refl _ _ _ _).
    + right. left. split; reflexivity.
    + right. left. split; reflexivity.
    + right. exists [("before", VInt 11)]. split; [reflexivity | now left].
    + right. exists [("before", VInt 18)]. split; [reflexivity | now left].
  - refine (proj1 (proj2 (proj2 (proj2 (derive_time_of_day_spec
      reference_fromisoformat
      (VDict [("derived_fields",
               VDict [("time_of_day",
                       VDict [("morning", VDict [("before", VInt 11)])])])])))))
      "2024-03-05T11:00:00Z" (mk_datetime 2024 3 5 11 0 0)
      [("derived_fields",
        VDict [("time_of_day",
                VDict [("morning", VDict [("before", VInt 11)])])])]
      [("time_of_day", VDict [("morning", VDict [("before", VInt 11)])])]
      [("morning", VDict [("before", VInt 11)])]
      11 17 eq_refl eq_refl _ _ _ _).
    + left. reflexivity.
    + left. reflexivity.
    + right. exists [("before", VInt 11)]. split; [reflexivity | now left].
    + left. split; reflexivity.
Defined.

(** ** Claims on the configuration keys *)

(** The transformation reads the configuration through its rule list and
    its time-of-day table only. *)
Lemma transform_event_config_ext (rt : runtime) (c1 c2 : value) :
  auto_tag_rules_of c1 = auto_tag_rules_of c2 ->
  time_config_of c1 = time_config_of c2 ->
  forall event, transform_event rt event c1 = transform_event rt event c2.
Proof.
  intros Hr Ht event.
  assert (Hd : forall v, derive_time_of_day (rt_fromisoformat rt) v c1 = derive_time_of_day (rt_fromisoformat rt) v c2).
  { intros v. unfold derive_time_of_day.
    destruct (parse_start (rt_fromisoformat rt) v); cbn [bind]; [now rewrite Ht | reflexivity]. }
  unfold transform_event, collect_tags.
  destruct (py_get event "Tags" (VList [])); cbn [bind]; [|reflexivity].
  rewrite Hr. destruct (auto_tag_rules_of c2); cbn [bind]; [|reflexivity].
  destruct (apply_auto_tags (rt_lower rt) event a0); cbn [bind]; [|reflexivity].
  destruct (py_get event "StartDate" (VStr "")); cbn [bind]; [|reflexivity].
  now rewrite Hd.
Qed.

(** C3, as stated, fails: a snake_case key that is present with an empty
    value is used, and the camelCase value is ignored.  The rule under
    [autoTagRules] would tag the event; with an empty [auto_tag_rules]
    beside it the tag is not produced.  The same holds for
    [derived_fields] beside [derivedFields]. *)
Lemma empty_snake_case_key_wins :
  let rule := VDict [("type", VStr "name-prefix"); ("pattern", VStr "hike");
                     ("tag", VStr "hiking")] in
  let event := VDict [("Id", VInt 7); ("Name", VStr "Hike to the peak")] in
  let both := VDict [("auto_tag_rules", VList []); ("autoTagRules", VList [rule])] in
  let camel_only := VDict [("autoTagRules", VList [rule])] in
  auto_tag_rules_of both = Ok (VList []) /\
  (exists out, transform_event reference_runtime event both = Ok out /\
               ~ In (VStr "hiking") (tags out)) /\
  (exists out, transform_event reference_runtime event camel_only = Ok out /\
               In (VStr "hiking") (tags out)) /\
  time_config_of
    (VDict [("derived_fields", VDict []);
            ("derivedFields",
             VDict [("timeOfDay", VDict [("morning", VDict [("before", VInt 9)])])])])
  = Ok (VDict []).
Proof.
  cbv zeta. split; [reflexivity | split; [|split; [|reflexivity]]].
  - eexists. split; [vm_compute; reflexivity|].
    cbn. intuition discriminate.
  - eexists. split; [vm_compute; reflexivity|].
    cbn. left. reflexivity.
Qed.

(** C3, amended: of a snake_case key and its camelCase synonym the
    snake_case one is used whenever it is present, empty or not; the
    camelCase one is used only when the snake_case key is absent; and a
    configuration that has both snake_case keys is read as if it had
    nothing else. *)
Theorem config_key_precedence (rt : runtime) (d : dict) :
  (forall v, lookup "auto_tag_rules" d = Some v ->
             auto_tag_rules_of (VDict d) = Ok v) /\
  (lookup "auto_tag_rules" d = None ->
   forall v, lookup "autoTagRules" d = Some v ->
             auto_tag_rules_of (VDict d) = Ok v) /\
  (forall df,
     lookup "derived_fields" d = Some (VDict df) \/
     (lookup "derived_fields" d = None /\
      lookup "derivedFields" d = Some (VDict df)) ->
     (forall v, lookup "time_of_day" df = Some v ->
                time_config_of (VDict d) = Ok v) /\
     (lookup "time_of_day" df = None ->
      forall v, lookup "timeOfDay" df = Some v ->
                time_config_of (VDict d) = Ok v)) /\
  (forall v w,
     lookup "auto_tag_rules" d = Some v ->
     lookup "derived_fields" d = Some w ->
     forall event,
       transform_event rt event (VDict d) =
       transform_event rt event
         (VDict [("auto_tag_rules", v); ("derived_fields", w)])).
Proof.
  split; [|split; [|split]].
  - intros v H. unfold auto_tag_rules_of. cbn [py_get bind]. unfold dict_get.
    now rewrite H.
  - intros Hs v Hc. unfold auto_tag_rules_of. cbn [py_get bind]. unfold dict_get.
    now rewrite Hs, Hc.
  - intros df Hdf.
    assert (Hderived : dict_get d "derived_fields"
                         (dict_get d "derivedFields" (VDict [])) = VDict df).
    { unfold dict_get. destruct Hdf as [-> | [-> ->]]; reflexivity. }
    unfold time_config_of. cbn [py_get bind]. rewrite Hderived.
    cbn [py_get bind]. unfold dict_get. split.
    + intros v ->. reflexivity.
    + intros -> v ->. reflexivity.
  - intros v w Hv Hw. apply transform_event_config_ext.
    + unfold auto_tag_rules_of. cbn [py_get bind]. unfold dict_get.
      rewrite Hv. reflexivity.
    + assert (Hderived : dict_get d "derived_fields"
                           (dict_get d "derivedFields" (VDict [])) = w).
      { unfold dict_get. now rewrite Hw. }
      unfold time_config_of. cbn [py_get bind]. rewrite Hderived.
      reflexivity.
Qed.

Lemma config_key_precedence_witness :
  auto_tag_rules_of
    (VDict [("auto_tag_rules", VList []);
            ("autoTagRules", VList [VDict [("type", VStr "name-prefix")]])])
  = Ok (VList []).
Proof.
  exact (proj1 (config_key_precedence reference_runtime
    [("auto_tag_rules", VList []);
     ("autoTagRules", VList [VDict [("type", VStr "name-prefix")]])])
    (VList []) eq_refl).
Defined.

(** ** Sets of tags *)

Lemma py_eq_refl (x : value) : hashable x = true -> py_eq x x = true.
Proof.
  destruct x; cbn; intros H; try discriminate; try reflexivity.
  - destruct b; reflexivity.
  - apply Z.eqb_refl.
  - apply String.eqb_refl.
Qed.

Lemma py_eq_str (s : string) (y : value) : py_eq (VStr s) y = true -> y = VStr s.
Proof.
  unfold py_eq. cbn [as_int]. destruct y; try discriminate.
  intros H. apply String.eqb_eq in H. now subst.
Qed.

Lemma set_add_nodup (s : list value) (x : value) :
  hashable x = true -> NoDup s -> NoDup (set_add s x).
Proof.
  intros Hx Hs. unfold set_add.
  destruct (existsb (py_eq x) s) eqn:E; [assumption|].
  apply NoDup_app; [assumption | repeat constructor; intros [] |].
  intros a Ha [Hax | []]. subst a.
  assert (existsb (py_eq x) s = true); [|congruence].
  apply existsb_exists. exists x. split; [assumption | now apply py_eq_refl].
Qed.

Lemma set_add_keeps (s : list value) (x t : value) :
  In t s -> In t (set_add s x).
Proof.
  intros H. unfold set_add. destruct (existsb (py_eq x) s); [assumption|].
  apply in_or_app. now left.
Qed.

Lemma fold_set_add_nodup (l : list value) :
  forallb hashable l = true ->
  forall acc, NoDup acc -> NoDup (fold_left set_add l acc).
Proof.
  induction l as [|x l IH]; cbn [fold_left forallb]; intros Hl acc Hacc.
  - assumption.
  - apply andb_true_iff in Hl. destruct Hl as [Hx Hl].
    apply IH; [assumption | now apply set_add_nodup].
Qed.

Lemma fold_set_add_keeps (l : list value) :
  forall acc t, In t acc -> In t (fold_left set_add l acc).
Proof.
  induction l as [|x l IH]; cbn [fold_left]; intros acc t H;
    [assumption | apply IH; now apply set_add_keeps].
Qed.

Lemma fold_set_add_sound (l : list value) :
  forall acc t, In t (fold_left set_add l acc) -> In t acc \/ In t l.
Proof.
  induction l as [|x l IH]; cbn [fold_left]; intros acc t H.
  - now left.
  - destruct (IH _ _ H) as [Hs | Hl]; [|right; now right].
    unfold set_add in Hs. destruct (existsb (py_eq x) acc); [now left|].
    apply in_app_or in Hs. destruct Hs as [Hs | [<- | []]];
      [now left | right; now left].
Qed.

Lemma fold_set_add_complete (l : list value) :
  forallb hashable l = true ->
  forall acc x, In x l ->
    exists y, In y (fold_left set_add l acc) /\ py_eq x y = true.
Proof.
  induction l as [|a l IH]; cbn [fold_left forallb]; intros Hl acc x Hx.
  - destruct Hx.
  - apply andb_true_iff in Hl. destruct Hl as [Ha Hl].
    destruct Hx as [<- | Hx]; [|now apply IH].
    unfold set_add. destruct (existsb (py_eq a) acc) eqn:E.
    + apply existsb_exists in E. destruct E as [y [Hy Heq]].
      exists y. split; [now apply fold_set_add_keeps | assumption].
    + exists a. split; [|now apply py_eq_refl].
      apply fold_set_add_keeps. apply in_or_app. right. now left.
Qed.

(** [list(set(l))]: no element twice, nothing new, nothing lost. *)
Lemma py_list_set_spec (l ts : list value) :
  py_list_set l = Ok ts ->
  NoDup ts /\
  (forall t, In t ts -> In t l) /\
  (forall x, In x l -> exists y, In y ts /\ py_eq x y = true).
Proof.
  unfold py_list_set. destruct (forallb hashable l) eqn:Hh; [|discriminate].
  intros H. inversion H; subst ts; clear H. split; [|split].
  - apply fold_set_add_nodup; [assumption | constructor].
  - intros t Ht. destruct (fold_set_add_sound _ _ _ Ht) as [[] | Hl]. exact Hl.
  - intros x Hx. now apply fold_set_add_complete.
Qed.

(** The availability tag is always among the collected tags. *)
Lemma collect_tags_availability (rt : runtime) (event org_config : value)
    (combined : list value) :
  collect_tags rt event org_config = Ok combined ->
  exists a, derive_availability event = Ok a /\ In (VStr a) combined.
Proof.
  unfold collect_tags. intros H.
  apply bind_ok in H. destruct H as [t [_ H]].
  apply bind_ok in H. destruct H as [rules [_ H]].
  apply bind_ok in H. destruct H as [auto_tags [_ H]].
  apply bind_ok in H. destruct H as [start_date [_ H]].
  apply bind_ok in H. destruct H as [time_tag [_ H]].
  apply bind_ok in H. destruct H as [avail [Hav H]].
  apply bind_ok in H. destruct H as [weekend [_ H]].
  exists avail. split; [assumption|].
  unfold py_concat in H. destruct (parse_wa_tags (rt_strip rt) t); try discriminate.
  inversion H; subst combined; clear H.
  apply in_or_app. right.
  destruct weekend; [apply in_or_app; left|]; apply in_or_app; right; now left.
Qed.

(** ** Claims on the Event Transformer *)

(** C2, as stated, fails: an event with neither a URL nor an identifier is
    transformed, and its URL is the empty string. *)
Lemma url_empty_without_identifier :
  exists out,
    transform_event reference_runtime
      (VDict [("Name", VStr "Hike"); ("StartDate", VStr "2024-03-05T09:00:00Z")])
      (VDict []) = Ok out /\
    url out = VStr "".
Proof. eexists. split; [vm_compute; reflexivity | reflexivity]. Qed.

(** C2, amended: in the output of a successful transformation the URL is
    the source URL, verbatim, when that is not empty; otherwise, when the
    identifier is present and not empty or zero, it is the fallback URL
    built from the identifier, which is not empty; and when neither is
    available it is the empty source value. *)
Theorem event_url_resolution (rt : runtime) (d : dict) (org_config : value)
    (out : normalized_event) :
  transform_event rt (VDict d) org_config = Ok out ->
  let source_url := dict_get d "Url" (VStr "") in
  let event_id := dict_get d "Id" VNone in
  (truthy source_url = true -> url out = source_url) /\
  (truthy source_url = false -> truthy event_id = true ->
   url out = VStr ("https://sbnewcomers.org/event-" ++ py_str event_id)) /\
  (truthy source_url = false -> truthy event_id = false ->
   url out = source_url) /\
  truthy (url out) = truthy source_url || truthy event_id.
Proof.
  intros H source_url event_id.
  apply transform_event_inv in H.
  destruct H as [d' [c [Hd [_ [_ [_ [Hu _]]]]]]]. inversion Hd; subst d'.
  unfold event_url_of in Hu. cbn [py_get bind] in Hu.
  fold source_url event_id in Hu.
  destruct (truthy source_url) eqn:Hs; destruct (truthy event_id) eqn:Hi;
    cbn [negb andb] in Hu; inversion Hu as [Hurl]; clear Hu;
    repeat split; intros; try discriminate; try reflexivity; cbn [orb];
    assumption.
Qed.

Lemma event_url_resolution_witness :
  exists out,
    transform_event reference_runtime
      (VDict [("Id", VInt 4711); ("Name", VStr "Hike")]) (VDict []) = Ok out /\
    url out = VStr "https://sbnewcomers.org/event-4711".
Proof.
  eexists. split; [vm_compute; reflexivity|].
  refine (proj1 (proj2 (event_url_resolution reference_runtime
    [("Id", VInt 4711); ("Name", VStr "Hike")] (VDict []) _ _)) eq_refl eq_refl).
  vm_compute. reflexivity.
Defined.

(** C8: in the output of a successful transformation [spotsAvailable] is
    null exactly when the capacity limit is null or unset, and [isFull] is
    true exactly when [spotsAvailable] is 0. *)
Theorem spots_and_full_flag (rt : runtime) (d : dict) (org_config : value)
    (out : normalized_event) :
  transform_event rt (VDict d) org_config = Ok out ->
  (spotsAvailable out = VNone <->
   lookup "RegistrationsLimit" d = None \/
   lookup "RegistrationsLimit" d = Some VNone) /\
  (isFull out = true <-> spotsAvailable out = VInt 0).
Proof.
  intros H. apply transform_event_inv in H.
  destruct H as [d' [c [Hd [_ [_ [Hsp [_ [Hfull _]]]]]]]]. inversion Hd; subst d'.
  rewrite Hfull. clear Hfull.
  unfold spots_of in Hsp. cbn [py_get bind] in Hsp. unfold dict_get in Hsp at 1 2.
  destruct (lookup "RegistrationsLimit" d) as [limit|] eqn:Hl.
  2:{ cbn in Hsp. inversion Hsp as [Hs]. cbn. split.
      - split; [now left | reflexivity].
      - split; discriminate. }
  destruct (is_none limit) eqn:Hn.
  - destruct limit; try discriminate. inversion Hsp as [Hs]. cbn. split.
    + split; [now right | reflexivity].
    + split; discriminate.
  - apply bind_ok in Hsp. destruct Hsp as [x [_ Hx]].
    inversion Hx as [Hs]. cbn [is_none eq_zero as_int]. split.
    + split; [discriminate|].
      intros [Habs | Habs]; [discriminate|].
      inversion Habs; subst limit. discriminate.
    + rewrite Z.eqb_eq. split; intros E; [now rewrite E | congruence].
Qed.

Lemma spots_and_full_flag_witness :
  exists out,
    transform_event reference_runtime
      (VDict [("Name", VStr "Hike"); ("RegistrationsLimit", VInt 12);
              ("ConfirmedRegistrationsCount", VInt 12)]) (VDict []) = Ok out /\
    (isFull out = true <-> spotsAvailable out = VInt 0).
Proof.
  eexists. split; [vm_compute; reflexivity|].
  refine (proj2 (spots_and_full_flag reference_runtime
    [("Name", VStr "Hike"); ("RegistrationsLimit", VInt 12);
     ("ConfirmedRegistrationsCount", VInt 12)] (VDict []) _ _)).
  vm_compute. reflexivity.
Defined.

(** C9: in the output of a successful transformation no tag occurs twice;
    the tags are those of the source and the derived ones, each kept once;
    and source tags A, A with a rule that derives A again give one A. *)
Theorem tags_deduplicated :
  (forall (rt : runtime) (event org_config : value) (out : normalized_event),
     transform_event rt event org_config = Ok out ->
     NoDup (tags out) /\
     exists combined,
       collect_tags rt event org_config = Ok combined /\
       (forall t, In t (tags out) -> In t combined) /\
       (forall s, In (VStr s) combined -> In (VStr s) (tags out))) /\
  (exists out,
     transform_event reference_runtime
       (VDict [("Name", VStr "Art walk"); ("Tags", VList [VStr "A"; VStr "A"])])
       (VDict [("auto_tag_rules",
                VList [VDict [("type", VStr "name-prefix"); ("pattern", VStr "art");
                              ("tag", VStr "A")]])]) = Ok out /\
     List.length (filter (fun t => eq_str t "A") (tags out)) = 1%nat) /\
  (exists out,
     transform_event reference_runtime
       (VDict [("Name", VStr "Art walk"); ("Tags", VStr "A, A")])
       (VDict [("autoTagRules",
                VList [VDict [("type", VStr "name-prefix"); ("pattern", VStr "art");
                              ("tag", VStr "A")]])]) = Ok out /\
     List.length (filter (fun t => eq_str t "A") (tags out)) = 1%nat).
Proof.
  split; [|split].
  - intros rt event org_config out H. apply transform_event_inv in H.
    destruct H as [d [combined [_ [Hc [Hs _]]]]].
    apply py_list_set_spec in Hs. destruct Hs as [Hnd [Hsound Hcomplete]].
    split; [assumption|]. exists combined. repeat split; try assumption.
    intros s Hin. destruct (Hcomplete _ Hin) as [y [Hy Heq]].
    apply py_eq_str in Heq. now subst y.
  - eexists. split; [vm_compute; reflexivity | reflexivity].
  - eexists. split; [vm_compute; reflexivity | reflexivity].
Qed.

Lemma tags_deduplicated_witness :
  exists out,
    transform_event reference_runtime
      (VDict [("Name", VStr "Art walk"); ("Tags", VList [VStr "A"; VStr "A"])])
      (VDict []) = Ok out /\
    NoDup (tags out).
Proof.
  eexists. split; [vm_compute; reflexivity|].
  refine (proj1 (proj1 tags_deduplicated reference_runtime
    (VDict [("Name", VStr "Art walk"); ("Tags", VList [VStr "A"; VStr "A"])])
    (VDict []) _ _)).
  vm_compute. reflexivity.
Defined.

(** C10: in the output of a successful transformation of an event whose
    capacity limit is 0, the tags hold [availability:open],
    [spotsAvailable] is 0 and [isFull] is true, whatever the confirmed
    count of registrations, a count being a number that is not negative
    (and 0 when the event gives none). *)
Theorem zero_limit_event (rt : runtime) (d : dict) (org_config : value)
    (out : normalized_event) :
  transform_event rt (VDict d) org_config = Ok out ->
  dict_get d "RegistrationsLimit" VNone = VInt 0 ->
  (forall confirmed,
     as_int (dict_get d "ConfirmedRegistrationsCount" (VInt 0)) = Some confirmed ->
     0 <= confirmed) ->
  In (VStr "availability:open") (tags out) /\
  spotsAvailable out = VInt 0 /\
  isFull out = true.
Proof.
  intros H Hl Hcount. apply transform_event_inv in H.
  destruct H as [d' [combined [Hd [Hct [Hs [Hsp [_ [Hfull _]]]]]]]].
  inversion Hd; subst d'.
  assert (Hspots : spotsAvailable out = VInt 0).
  { unfold spots_of in Hsp. cbn [py_get bind] in Hsp. rewrite Hl in Hsp.
    cbn [is_none py_sub as_int] in Hsp.
    destruct (as_int (dict_get d "ConfirmedRegistrationsCount" (VInt 0)))
      as [c|]; [|discriminate].
    specialize (Hcount c eq_refl).
    cbn in Hsp. inversion Hsp as [Hx]. f_equal. lia. }
  split; [|split; [assumption | rewrite Hfull, Hspots; reflexivity]].
  destruct (collect_tags_availability _ _ _ _ Hct) as [a [Ha Hin]].
  pose proof (derive_availability_open d (or_intror Hl)) as Hopen.
  rewrite Hopen in Ha. inversion Ha; subst a.
  apply py_list_set_spec in Hs. destruct Hs as [_ [_ Hcomplete]].
  destruct (Hcomplete _ Hin) as [y [Hy Heq]].
  apply py_eq_str in Heq. now subst y.
Qed.

Lemma zero_limit_event_witness :
  (exists out,
     transform_event reference_runtime
       (VDict [("Name", VStr "Hike"); ("RegistrationsLimit", VInt 0);
               ("ConfirmedRegistrationsCount", VInt 3)]) (VDict []) = Ok out /\
     In (VStr "availability:open") (tags out) /\
     spotsAvailable out = VInt 0 /\
     isFull out = true) /\
  (exists out,
     transform_event reference_runtime
       (VDict [("Name", VStr "Hike"); ("RegistrationsLimit", VInt 0)])
       (VDict []) = Ok out /\
     In (VStr "availability:open") (tags out) /\
     spotsAvailable out = VInt 0 /\
     isFull out = true).
Proof.
  split.
  - eexists. split; [vm_compute; reflexivity|].
    refine (zero_limit_event reference_runtime
      [("Name", VStr "Hike"); ("RegistrationsLimit", VInt 0);
       ("ConfirmedRegistrationsCount", VInt 3)] (VDict []) _ _ eq_refl _).
    + vm_compute. reflexivity.
    + intros c Hc. vm_compute in Hc. inversion Hc. lia.
  - eexists. split; [vm_compute; reflexivity|].
    refine (zero_limit_event reference_runtime
      [("Name", VStr "Hike"); ("RegistrationsLimit", VInt 0)] (VDict [])
      _ _ eq_refl _).
    + vm_compute. reflexivity.
    + intros c Hc. vm_compute in Hc. inversion Hc. lia.
Defined.

(** * Further properties of the code *)

(** ** The loop of [sync_events] in full *)

Lemma transform_loop_spec (rt : runtime) (cfg : value) (raw : list value) :
  forall acc log evs log',
    transform_loop rt cfg raw acc log = Ok (evs, log') ->
    let kept := filter (fun e => negb (is_cancelled e)) raw in
    evs = (acc ++ flat_map (transformed_of rt cfg) kept)%list /\
    log' = (log ++ flat_map (warning_of rt cfg) kept)%list.
Proof.
  induction raw as [|x raw IH]; intros acc log evs log' H.
  - cbn in H. inversion H; subst. cbn. now rewrite !app_nil_r.
  - cbn [transform_loop] in H.
    apply bind_ok in H. destruct H as [v [Hv H]].
    apply py_get_ok in Hv. destruct Hv as [d [-> ->]].
    apply bind_ok in H. destruct H as [u [Hu H]].
    destruct (dict_get d "Name" (VStr "")) as [| | |m| |] eqn:Hn;
      try discriminate.
    cbn in Hu. inversion Hu; subst u; clear Hu.
    cbn [filter is_cancelled]. rewrite Hn.
    destruct (contains (upper m) "CANCELLED") eqn:Hc; cbn [negb].
    + exact (IH _ _ _ _ H).
    + cbn [flat_map]. unfold transformed_of at 1, warning_of at 1.
      destruct (transform_event rt (VDict d) cfg) as [t|e] eqn:Ht.
      * destruct (IH _ _ _ _ H) as [-> ->]. cbn [app].
        split; [now rewrite <- app_assoc | reflexivity].
      * cbn [py_get bind] in H. destruct (IH _ _ _ _ H) as [-> ->]. cbn [app].
        split; [reflexivity | now rewrite <- app_assoc].
Qed.

Lemma transform_loop_raises (rt : runtime) (cfg : value) (raw : list value) :
  forall acc log e,
    transform_loop rt cfg raw acc log = Raise e -> e = AttributeError.
Proof.
  induction raw as [|x raw IH]; intros acc log e H; [discriminate|].
  cbn [transform_loop] in H.
  destruct x as [| | | |l|d];
    try (cbn in H; now inversion H).
  cbn [py_get bind] in H.
  destruct (dict_get d "Name" (VStr "")) as [| | |m| |];
    try (cbn in H; now inversion H).
  cbn [py_upper bind] in H.
  destruct (contains (upper m) "CANCELLED"); [exact (IH _ _ _ H)|].
  destruct (transform_event rt (VDict d) cfg); [exact (IH _ _ _ H)|].
  cbn [bind] in H. exact (IH _ _ _ H).
Qed.

Lemma transform_loop_ok_well_named (rt : runtime) (cfg : value)
    (raw : list value) :
  forall acc log r,
    transform_loop rt cfg raw acc log = Ok r -> Forall well_named raw.
Proof.
  induction raw as [|x raw IH]; intros acc log r H; [constructor|].
  cbn [transform_loop] in H.
  apply bind_ok in H. destruct H as [v [Hv H]].
  apply py_get_ok in Hv. destruct Hv as [d [-> ->]].
  apply bind_ok in H. destruct H as [u [Hu H]].
  constructor.
  - exists d. split; [reflexivity|]. unfold dict_get in Hu.
    destruct (lookup "Name" d) as [n|]; [|now left].
    right. destruct n; try discriminate. now eexists.
  - destruct (contains u "CANCELLED"); [exact (IH _ _ _ H)|].
    destruct (transform_event rt (VDict d) cfg); [exact (IH _ _ _ H)|].
    cbn [py_get bind] in H. exact (IH _ _ _ H).
Qed.

(** X1: the events of the written document are the transformations of the
    fetched events that are not cancelled and whose transformation returns,
    in the order of the fetch; the warnings are those of the events whose
    transformation raises, in the same order, each with the identifier of
    its event. *)
Theorem sync_output_in_fetch_order (rt : runtime) (env : sync_env)
    (r : sync_result) (out : output) (log : list warning) :
  sync_events rt env = Ok (r, out, log) ->
  exists cfg raw,
    load_config env = Ok cfg /\ get_events env = Ok raw /\
    let kept := filter (fun e => negb (is_cancelled e)) raw in
    events out = flat_map (transformed_of rt cfg) kept /\
    log = flat_map (warning_of rt cfg) kept /\
    out = document_of rt env cfg raw.
Proof.
  intros H. unfold sync_events in H.
  destruct (negb (truthy (VStr (account_id env))) ||
            negb (truthy (VStr (api_key env)))); [discriminate|].
  apply bind_ok in H. destruct H as [cfg [Hcfg H]].
  apply bind_ok in H. destruct H as [raw [Hraw H]].
  apply bind_ok in H. destruct H as [[evs log0] [Hloop H]].
  apply bind_ok in H. destruct H as [u [_ H]].
  inversion H as [[Hr Ho Hl]]. clear H.
  exists cfg, raw. split; [assumption | split; [assumption|]].
  destruct (transform_loop_spec rt cfg raw [] [] evs log0 Hloop) as [He Hw].
  cbn [app] in He, Hw. subst evs log0 out log. cbn [fst snd events].
  repeat split.
Qed.

Lemma sync_output_in_fetch_order_witness :
  let env :=
    sample_env [VDict [("Id", VInt 1); ("Name", VStr "Picnic"); ("Tags", VInt 5)];
                VDict [("Id", VInt 2); ("Name", VStr "Hike")];
                VDict [("Id", VInt 3); ("Name", VStr "cancelled: Gala")];
                VDict [("Id", VInt 4); ("Name", VStr "Tour")]] in
  exists r out log,
    sync_events reference_runtime env = Ok (r, out, log) /\
    exists cfg raw,
      load_config env = Ok cfg /\ get_events env = Ok raw /\
      let kept := filter (fun e => negb (is_cancelled e)) raw in
      events out = flat_map (transformed_of reference_runtime cfg) kept /\
      log = flat_map (warning_of reference_runtime cfg) kept /\
      out = document_of reference_runtime env cfg raw.
Proof.
  intros env. do 3 eexists. split; [vm_compute; reflexivity|].
  eapply sync_output_in_fetch_order. vm_compute. reflexivity.
Defined.

Lemma sync_events_inv (rt : runtime) (env : sync_env)
    (r : sync_result) (out : output) (log : list warning) :
  sync_events rt env = Ok (r, out, log) ->
  account_id env <> "" /\ api_key env <> "" /\
  exists cfg raw u,
    load_config env = Ok cfg /\ get_events env = Ok raw /\
    transform_loop rt cfg raw [] [] = Ok (events out, log) /\
    out = document_of rt env cfg raw /\
    save_events env out = Ok u /\
    r = {| success := true; result_eventCount := eventCount out;
           result_url := u; timestamp := _generated out |}.
Proof.
  intros H. unfold sync_events in H.
  destruct (truthy (VStr (account_id env))) eqn:Ha; [|discriminate].
  destruct (truthy (VStr (api_key env))) eqn:Hk; [|discriminate].
  cbn [negb orb] in H.
  apply truthy_str in Ha. apply truthy_str in Hk.
  apply bind_ok in H. destruct H as [cfg [Hcfg H]].
  apply bind_ok in H. destruct H as [raw [Hraw H]].
  apply bind_ok in H. destruct H as [[evs log0] [Hloop H]].
  apply bind_ok in H. destruct H as [u [Hu H]].
  cbn [fst snd] in *.
  destruct (transform_loop_spec rt cfg raw [] [] evs log0 Hloop) as [He _].
  cbn [app] in He.
  inversion H as [[Hr Ho Hl]]. clear H. subst log0.
  split; [assumption | split; [assumption|]].
  exists cfg, raw, u. cbn [events eventCount _generated].
  assert (Hdoc : {| _warning := "This file is auto-generated. Do not edit manually.";
                    _generated := utcnow_isoformat env ++ "Z";
                    _orgId := org_id env;
                    eventCount := List.length evs;
                    events := evs |} = document_of rt env cfg raw).
  { unfold document_of. now rewrite <- He. }
  rewrite <- Hdoc. repeat split; assumption.
Qed.

Lemma one_contribution (rt : runtime) (cfg : value) (d : dict) :
  (List.length (transformed_of rt cfg (VDict d)) +
   List.length (warning_of rt cfg (VDict d)) = 1)%nat.
Proof.
  unfold transformed_of, warning_of.
  destruct (transform_event rt (VDict d) cfg); reflexivity.
Qed.

Lemma contributions_count (rt : runtime) (cfg : value) (l : list value) :
  Forall well_named l ->
  (List.length (flat_map (transformed_of rt cfg) l) +
   List.length (flat_map (warning_of rt cfg) l) = List.length l)%nat.
Proof.
  induction 1 as [|x l [d [-> _]] _ IH]; [reflexivity|].
  cbn [flat_map]. rewrite !length_app. cbn [List.length].
  pose proof (one_contribution rt cfg d). lia.
Qed.

Lemma filter_partition_length {A : Type} (p : A -> bool) (l : list A) :
  (List.length (filter p l) + List.length (filter (fun x => negb (p x)) l)
   = List.length l)%nat.
Proof.
  induction l as [|x l IH]; [reflexivity|].
  cbn [filter]. destruct (p x); cbn [negb List.length]; lia.
Qed.

Lemma Forall_filter {A : Type} (P : A -> Prop) (p : A -> bool) (l : list A) :
  Forall P l -> Forall P (filter p l).
Proof.
  induction 1 as [|x l Hx _ IH]; [constructor|].
  cbn [filter]. destruct (p x); [now constructor | assumption].
Qed.

(** X2: every fetched event is accounted for exactly once: it is skipped as
    cancelled, or it is an event of the document, or it is the subject of a
    warning. *)
Theorem sync_accounts_for_every_event (rt : runtime) (env : sync_env)
    (r : sync_result) (out : output) (log : list warning) :
  sync_events rt env = Ok (r, out, log) ->
  exists raw,
    get_events env = Ok raw /\
    (List.length raw =
     List.length (filter is_cancelled raw) + eventCount out + List.length log)%nat.
Proof.
  intros H. apply sync_events_inv in H.
  destruct H as [_ [_ [cfg [raw [u [_ [Hraw [Hloop [Hout _]]]]]]]]].
  exists raw. split; [assumption|].
  pose proof (transform_loop_ok_well_named rt cfg raw [] [] _ Hloop) as Hwn.
  destruct (transform_loop_spec rt cfg raw [] [] _ _ Hloop) as [_ Hlog].
  cbn [app] in Hlog. rewrite Hlog, Hout. unfold document_of. cbn [eventCount].
  rewrite <- (filter_partition_length is_cancelled raw) at 1.
  rewrite <- (contributions_count rt cfg _
                (Forall_filter well_named (fun e => negb (is_cancelled e)) raw Hwn)).
  apply Nat.add_assoc.
Qed.

Lemma sync_accounts_for_every_event_witness :
  let env :=
    sample_env [VDict [("Id", VInt 1); ("Name", VStr "Picnic"); ("Tags", VInt 5)];
                VDict [("Id", VInt 2); ("Name", VStr "Hike")];
                VDict [("Id", VInt 3); ("Name", VStr "cancelled: Gala")];
                VDict [("Id", VInt 4); ("Name", VStr "Tour")]] in
  match sync_events reference_runtime env with
  | Ok (r, out, log) =>
      exists raw,
        get_events env = Ok raw /\
        (List.length raw =
         List.length (filter is_cancelled raw) + eventCount out + List.length log)%nat
  | Raise _ => False
  end.
Proof.
  intros env.
  destruct (sync_events reference_runtime env) as [[[r out] log]|e] eqn:H.
  - exact (sync_accounts_for_every_event reference_runtime env r out log H).
  - vm_compute in H. discriminate.
Defined.

Lemma sync_events_returns_iff (rt : runtime) (env : sync_env) :
  (exists r out log, sync_events rt env = Ok (r, out, log)) <->
  account_id env <> "" /\ api_key env <> "" /\
  exists cfg raw,
    load_config env = Ok cfg /\ get_events env = Ok raw /\
    Forall well_named raw /\
    exists u, save_events env (document_of rt env cfg raw) = Ok u.
Proof.
  split.
  - intros [r [out [log H]]]. apply sync_events_inv in H.
    destruct H as [Ha [Hk [cfg [raw [u [Hcfg [Hraw [Hloop [Hout [Hu _]]]]]]]]]].
    split; [assumption | split; [assumption|]].
    exists cfg, raw. repeat split; try assumption.
    + exact (transform_loop_ok_well_named rt cfg raw [] [] _ Hloop).
    + exists u. now rewrite <- Hout.
  - intros [Ha [Hk [cfg [raw [Hcfg [Hraw [Hwn [u Hu]]]]]]]].
    unfold sync_events. apply truthy_str in Ha. apply truthy_str in Hk.
    rewrite Ha, Hk. cbn [negb orb]. rewrite Hcfg, Hraw. cbn [bind].
    destruct (transform_loop_total rt cfg raw Hwn [] []) as [evs [log Hloop]].
    rewrite Hloop. cbn [bind fst snd].
    destruct (transform_loop_spec rt cfg raw [] [] evs log Hloop) as [He _].
    cbn [app] in He. unfold document_of in Hu. rewrite <- He in Hu.
    rewrite Hu. cbn [bind]. now do 3 eexists.
Qed.

(** X3: a run returns a result exactly when the credentials are present,
    the configuration loads, the fetch returns, every fetched event is an
    object whose name is a string or absent, and the storage accepts the
    document; when the first three hold and some fetched event is not of
    that kind, the run raises AttributeError. *)
Theorem sync_events_success_iff (rt : runtime) (env : sync_env) :
  ((exists r out log, sync_events rt env = Ok (r, out, log)) <->
   account_id env <> "" /\ api_key env <> "" /\
   exists cfg raw,
     load_config env = Ok cfg /\ get_events env = Ok raw /\
     Forall well_named raw /\
     exists u, save_events env (document_of rt env cfg raw) = Ok u) /\
  (forall cfg raw,
     account_id env <> "" -> api_key env <> "" ->
     load_config env = Ok cfg -> get_events env = Ok raw ->
     ~ Forall well_named raw ->
     sync_events rt env = Raise AttributeError).
Proof.
  split; [apply sync_events_returns_iff|].
  intros cfg raw Ha Hk Hcfg Hraw Hbad.
  unfold sync_events. apply truthy_str in Ha. apply truthy_str in Hk.
  rewrite Ha, Hk. cbn [negb orb]. rewrite Hcfg, Hraw. cbn [bind].
  destruct (transform_loop rt cfg raw [] []) as [res|e] eqn:Hloop.
  - exfalso. apply Hbad.
    exact (transform_loop_ok_well_named rt cfg raw [] [] res Hloop).
  - cbn [bind]. now rewrite (transform_loop_raises rt cfg raw [] [] e Hloop).
Qed.

Lemma sync_events_success_iff_witness :
  sync_events reference_runtime
    (sample_env [VDict [("Id", VInt 2); ("Name", VStr "Hike")]; VStr "not an event"])
  = Raise AttributeError.
Proof.
  refine (proj2 (sync_events_success_iff reference_runtime
    (sample_env [VDict [("Id", VInt 2); ("Name", VStr "Hike")]; VStr "not an event"]))
    (VDict []) _ _ _ eq_refl eq_refl _); try discriminate.
  intros H. inversion H as [|x l _ Hl]. inversion Hl as [|y l' [d [Hd _]] _].
  discriminate.
Defined.

(** ** Capacity: spots, the full flag and the availability tag *)

Lemma spots_of_inv (d : dict) (v : value) :
  spots_of (VDict d) = Ok v ->
  (dict_get d "RegistrationsLimit" VNone = VNone /\ v = VNone) \/
  (exists l c,
     as_int (dict_get d "RegistrationsLimit" VNone) = Some l /\
     as_int (dict_get d "ConfirmedRegistrationsCount" (VInt 0)) = Some c /\
     v = VInt (Z.max 0 (l - c))).
Proof.
  unfold spots_of. cbn [py_get bind].
  destruct (dict_get d "RegistrationsLimit" VNone) as [| b | n | | |] eqn:Hl;
    cbn [is_none]; intros H.
  - left. inversion H. now split.
  - right. unfold py_sub in H. cbn [as_int] in H.
    destruct (as_int (dict_get d "ConfirmedRegistrationsCount" (VInt 0)))
      as [c|]; [|discriminate].
    cbn [bind] in H. inversion H. now exists (if b then 1 else 0), c.
  - right. unfold py_sub in H. cbn [as_int] in H.
    destruct (as_int (dict_get d "ConfirmedRegistrationsCount" (VInt 0)))
      as [c|]; [|discriminate].
    cbn [bind] in H. inversion H. now exists n, c.
  - discriminate.
  - discriminate.
  - discriminate.
Qed.

(** X4: in the output of a successful transformation [spotsAvailable] is
    null or an integer that is not negative: an overbooked event (more
    confirmed registrations than the limit) reports 0, and for an integer
    limit and count the value is max(0, limit - confirmed). *)
Theorem spots_never_negative (rt : runtime) (d : dict) (org_config : value)
    (out : normalized_event) :
  transform_event rt (VDict d) org_config = Ok out ->
  (spotsAvailable out = VNone \/
   exists n, spotsAvailable out = VInt n /\ 0 <= n) /\
  (forall l c,
     dict_get d "RegistrationsLimit" VNone = VInt l ->
     dict_get d "ConfirmedRegistrationsCount" (VInt 0) = VInt c ->
     spotsAvailable out = VInt (Z.max 0 (l - c)) /\
     (l <= c -> spotsAvailable out = VInt 0)).
Proof.
  intros H. apply transform_event_inv in H.
  destruct H as [d' [comb [Hd [_ [_ [Hsp _]]]]]]. inversion Hd; subst d'.
  apply spots_of_inv in Hsp. split.
  - destruct Hsp as [[_ ->] | [l [c [_ [_ ->]]]]]; [now left | right].
    exists (Z.max 0 (l - c)). split; [reflexivity | lia].
  - intros l c Hl Hc. rewrite Hl, Hc in Hsp.
    destruct Hsp as [[Habs _] | [l' [c' [Hl' [Hc' ->]]]]]; [discriminate|].
    cbn in Hl', Hc'. inversion Hl'; inversion Hc'; subst.
    split; [reflexivity|]. intros Hle. f_equal. lia.
Qed.

Lemma spots_never_negative_witness :
  match transform_event reference_runtime
          (VDict [("Name", VStr "Hike"); ("RegistrationsLimit", VInt 10);
                  ("ConfirmedRegistrationsCount", VInt 13)]) (VDict []) with
  | Ok out => spotsAvailable out = VInt 0
  | Raise _ => False
  end.
Proof.
  destruct (transform_event reference_runtime
              (VDict [("Name", VStr "Hike"); ("RegistrationsLimit", VInt 10);
                      ("ConfirmedRegistrationsCount", VInt 13)]) (VDict []))
    as [out|e] eqn:H.
  - refine (proj2 (proj2 (spots_never_negative reference_runtime _ _ out H)
                     10 13 eq_refl eq_refl) _). lia.
  - vm_compute in H. discriminate.
Defined.

(** X5: for an event with an integer capacity limit other than 0 and an
    integer confirmed count, a successful transformation sets [isFull]
    exactly when the derived availability tag is [availability:full], that
    is, exactly when the confirmed count reaches the limit. *)
Theorem full_flag_agrees_with_tag (rt : runtime) (d : dict)
    (org_config : value) (out : normalized_event) (l c : Z) :
  transform_event rt (VDict d) org_config = Ok out ->
  dict_get d "RegistrationsLimit" VNone = VInt l ->
  l <> 0 ->
  dict_get d "ConfirmedRegistrationsCount" (VInt 0) = VInt c ->
  (isFull out = true <-> derive_availability (VDict d) = Ok "availability:full") /\
  (isFull out = true <-> l <= c).
Proof.
  intros H Hl Hne Hc. apply transform_event_inv in H.
  destruct H as [d' [comb [Hd [_ [_ [Hsp [_ [Hfull _]]]]]]]].
  inversion Hd; subst d'.
  apply spots_of_inv in Hsp. rewrite Hl, Hc in Hsp.
  destruct Hsp as [[Habs _] | [l' [c' [Hl' [Hc' Hs]]]]]; [discriminate|].
  cbn in Hl', Hc'. inversion Hl'; inversion Hc'; subst l' c'.
  rewrite Hfull, Hs. cbn [is_none eq_zero as_int].
  assert (Hflag : (Z.max 0 (l - c) =? 0) = true <-> l <= c).
  { rewrite Z.eqb_eq. lia. }
  split; [|exact Hflag].
  rewrite Hflag. unfold derive_availability. cbn [py_get bind]. rewrite Hl, Hc.
  cbn [is_none eq_zero as_int orb py_sub bind].
  destruct (Z.eqb_spec l 0) as [|_]; [contradiction|].
  destruct (Z.leb_spec (l - c) 0).
  - split; [reflexivity | lia].
  - split; [lia|]. destruct (l - c <=? 5); discriminate.
Qed.

Lemma full_flag_agrees_with_tag_witness :
  match transform_event reference_runtime
          (VDict [("Name", VStr "Hike"); ("RegistrationsLimit", VInt 10);
                  ("ConfirmedRegistrationsCount", VInt 10)]) (VDict []) with
  | Ok out => isFull out = true <-> 10 <= 10
  | Raise _ => False
  end.
Proof.
  destruct (transform_event reference_runtime
              (VDict [("Name", VStr "Hike"); ("RegistrationsLimit", VInt 10);
                      ("ConfirmedRegistrationsCount", VInt 10)]) (VDict []))
    as [out|e] eqn:H.
  - refine (proj2 (full_flag_agrees_with_tag reference_runtime _ _ out
                     10 10 H eq_refl _ eq_refl)). lia.
  - vm_compute in H. discriminate.
Defined.

(** X6: [derive_availability] on an event object raises only a TypeError,
    and exactly when the limit is neither null nor zero and the limit or
    the confirmed count is not a number; otherwise it returns one of the
    three availability tags. *)
Theorem derive_availability_failure (d : dict) :
  let limit := dict_get d "RegistrationsLimit" VNone in
  let confirmed := dict_get d "ConfirmedRegistrationsCount" (VInt 0) in
  (forall e,
     derive_availability (VDict d) = Raise e <->
     e = TypeError /\ limit <> VNone /\ as_int limit <> Some 0 /\
     (as_int limit = None \/ as_int confirmed = None)) /\
  (forall t,
     derive_availability (VDict d) = Ok t ->
     t = "availability:open" \/ t = "availability:limited" \/
     t = "availability:full").
Proof.
  intros limit confirmed. unfold derive_availability. cbn [py_get bind].
  fold limit confirmed.
  destruct limit as [| b | n | s | l | d'] eqn:Hl; cbn [is_none eq_zero as_int orb].
  - split; [|intros t H; inversion H; auto].
    intros e. split; [discriminate | intros [_ [H _]]; contradiction].
  - destruct b; cbn [Z.eqb].
    + unfold py_sub. cbn [as_int]. destruct (as_int confirmed) as [c|];
        cbn [bind].
      * split.
        -- intros e. split; [|intros [_ [_ [_ [H | H]]]]; discriminate].
           destruct (1 - c <=? 0); [discriminate|].
           destruct (1 - c <=? 5); discriminate.
        -- intros t. destruct (1 - c <=? 0); [intros H; inversion H; auto|].
           destruct (1 - c <=? 5); intros H; inversion H; auto.
      * split; [|discriminate].
        intros e. split.
        -- intros H. inversion H. repeat split; try discriminate. now right.
        -- intros [-> _]. reflexivity.
    + split; [|intros t H; inversion H; auto].
      intros e. split; [discriminate | intros [_ [_ [H _]]]; contradiction].
  - destruct (Z.eqb_spec n 0) as [->|Hn].
    + split; [|intros t H; inversion H; auto].
      intros e. split; [discriminate | intros [_ [_ [H _]]]; contradiction].
    + unfold py_sub. cbn [as_int]. destruct (as_int confirmed) as [c|];
        cbn [bind].
      * split.
        -- intros e. split; [|intros [_ [_ [_ [H | H]]]]; discriminate].
           destruct (n - c <=? 0); [discriminate|].
           destruct (n - c <=? 5); discriminate.
        -- intros t. destruct (n - c <=? 0); [intros H; inversion H; auto|].
           destruct (n - c <=? 5); intros H; inversion H; auto.
      * split; [|discriminate].
        intros e. split.
        -- intros H. inversion H. repeat split; try discriminate; try congruence.
           now right.
        -- intros [-> _]. reflexivity.
  - split; [|discriminate]. intros e. split.
    + intros H. inversion H. repeat split; try discriminate. now left.
    + intros [-> _]. reflexivity.
  - split; [|discriminate]. intros e. split.
    + intros H. inversion H. repeat split; try discriminate. now left.
    + intros [-> _]. reflexivity.
  - split; [|discriminate]. intros e. split.
    + intros H. inversion H. repeat split; try discriminate. now left.
    + intros [-> _]. reflexivity.
Qed.

(** ** The weekend flag and the time-of-day tag at the edges *)

Lemma weekday_range (dt : datetime) : 0 <= weekday dt < 7.
Proof. unfold weekday. apply Z.mod_pos_bound. lia. Qed.

(** X7: [derive_weekend] raises nothing, whatever the start value; it
    answers true exactly when the start is a string that parses to a date
    whose weekday is Saturday (5) or Sunday (6), and false for a start that
    is not a string or does not parse. *)
Theorem derive_weekend_spec (f : iso_parser) (start_date_str : value) :
  exists b,
    derive_weekend f start_date_str = Ok b /\
    (b = true <->
     exists s dt,
       start_date_str = VStr s /\ f (replace_Z s) = Some dt /\
       (weekday dt = 5 \/ weekday dt = 6)).
Proof.
  unfold derive_weekend.
  destruct start_date_str as [| b | n | s | l | d];
    try (exists false; split; [reflexivity|];
         split; [discriminate | intros [s [dt [H _]]]; discriminate]).
  cbn [parse_start]. destruct (f (replace_Z s)) as [dt|] eqn:Hp.
  - exists (5 <=? weekday dt). split; [reflexivity|].
    pose proof (weekday_range dt) as Hr. rewrite Z.leb_le. split.
    + intros H. exists s, dt. repeat split; [assumption | lia].
    + intros [s' [dt' [Hs [Hp' Hw]]]]. inversion Hs; subst s'.
      rewrite Hp in Hp'. inversion Hp'; subst dt'. lia.
  - exists false. split; [reflexivity|].
    split; [discriminate|].
    intros [s' [dt' [Hs [Hp' _]]]]. inversion Hs; subst s'. congruence.
Qed.

Lemma time_tag_range (f : iso_parser) (v config : value) (r : option string) :
  derive_time_of_day f v config = Ok r ->
  r = None \/ r = Some "time:morning" \/ r = Some "time:afternoon" \/
  r = Some "time:evening".
Proof.
  unfold derive_time_of_day.
  destruct (parse_start f v) as [dt|e]; cbn [bind].
  2:{ destruct e; cbn; intros H; inversion H; auto. }
  destruct (time_config_of config) as [tc|e]; cbn [bind].
  2:{ destruct e; cbn; intros H; inversion H; auto. }
  destruct (before_of tc "morning" 12) as [mb|e]; cbn [bind].
  2:{ destruct e; cbn; intros H; inversion H; auto. }
  destruct (before_of tc "afternoon" 17) as [ab|e]; cbn [bind].
  2:{ destruct e; cbn; intros H; inversion H; auto. }
  destruct (py_int_lt (hour dt) mb) as [b1|e]; cbn [bind].
  2:{ destruct e; cbn; intros H; inversion H; auto. }
  destruct b1; [cbn; intros H; inversion H; auto|].
  destruct (py_int_lt (hour dt) ab) as [b2|e]; cbn [bind].
  2:{ destruct e; cbn; intros H; inversion H; auto. }
  destruct b2; cbn; intros H; inversion H; auto.
Qed.


(** X8: the time-of-day derivation returns no tag or one of the three
    time tags; it returns no tag when the start is not a string, when the
    configuration is not an object, and when the start parses but the
    morning boundary of the configuration is not a number. *)
Theorem derive_time_of_day_edges (f : iso_parser) (start_date_str config : value) :
  (forall r,
     derive_time_of_day f start_date_str config = Ok r ->
     r = None \/ r = Some "time:morning" \/ r = Some "time:afternoon" \/
     r = Some "time:evening") /\
  ((forall s, start_date_str <> VStr s) ->
   derive_time_of_day f start_date_str config = Ok None) /\
  ((forall d, config <> VDict d) ->
   derive_time_of_day f start_date_str config = Ok None) /\
  (forall s dt time_config boundary,
     start_date_str = VStr s -> f (replace_Z s) = Some dt ->
     time_config_of config = Ok time_config ->
     before_of time_config "morning" 12 = Ok boundary ->
     as_int boundary = None ->
     derive_time_of_day f start_date_str config = Ok None).
Proof.
  split; [|split; [|split]].
  - intros r. apply time_tag_range.
  - intros Hns. unfold derive_time_of_day.
    destruct start_date_str; try reflexivity. exfalso. now apply (Hns s).
  - intros Hnd. unfold derive_time_of_day.
    destruct (parse_start f start_date_str) as [dt|e] eqn:Hp; cbn [bind].
    + destruct config; try reflexivity. exfalso. now apply (Hnd d).
    + pose proof (raises_caught_parse_start f start_date_str e Hp) as Hc.
      destruct Hc as [-> | [-> | ->]]; reflexivity.
  - intros s dt tc boundary -> Hp Htc Hmb Hnum.
    unfold derive_time_of_day. cbn [parse_start]. rewrite Hp. cbn [bind].
    rewrite Htc. cbn [bind]. rewrite Hmb. cbn [bind].
    destruct (before_of tc "afternoon" 17) as [ab|e] eqn:Hab; cbn [bind].
    + unfold py_int_lt. rewrite Hnum. reflexivity.
    + assert (Hc : caught e).
      { revert Hab. unfold before_of.
        apply raises_caught_bind; [apply raises_caught_py_get | intros ?].
        apply raises_caught_py_get. }
      destruct Hc as [-> | [-> | ->]]; reflexivity.
Qed.

Lemma derive_time_of_day_edges_witness :
  derive_time_of_day reference_fromisoformat (VStr "2024-03-05T09:30:00Z")
    (VDict [("derived_fields",
             VDict [("time_of_day",
                     VDict [("morning", VDict [("before", VStr "noon")])])])])
  = Ok None.
Proof.
  exact (proj2 (proj2 (proj2 (derive_time_of_day_edges reference_fromisoformat
    (VStr "2024-03-05T09:30:00Z")
    (VDict [("derived_fields",
             VDict [("time_of_day",
                     VDict [("morning", VDict [("before", VStr "noon")])])])]))))
    "2024-03-05T09:30:00Z" (mk_datetime 2024 3 5 9 30 0)
    (VDict [("morning", VDict [("before", VStr "noon")])]) (VStr "noon")
    eq_refl eq_refl eq_refl eq_refl eq_refl).
Defined.

(** ** The Tag Rule Evaluator: composition and failure *)

Lemma auto_tags_loop_app (str_lower : string -> string) (n : string)
    (r1 r2 : list value) :
  forall acc,
    auto_tags_loop str_lower n (r1 ++ r2) acc =
    (a <- auto_tags_loop str_lower n r1 acc ;; auto_tags_loop str_lower n r2 a).
Proof.
  induction r1 as [|x r1 IH]; intros acc; cbn [app auto_tags_loop bind];
    [reflexivity|].
  destruct (rule_step str_lower n x); cbn [bind]; [apply IH | reflexivity].
Qed.

Lemma auto_tags_loop_acc (str_lower : string -> string) (n : string)
    (rs : list value) :
  forall acc,
    auto_tags_loop str_lower n rs acc =
    (ts <- auto_tags_loop str_lower n rs [] ;; Ok (acc ++ ts)%list).
Proof.
  induction rs as [|x rs IH]; intros acc; cbn [auto_tags_loop bind].
  - now rewrite app_nil_r.
  - destruct (rule_step str_lower n x) as [ts|]; cbn [bind app]; [|reflexivity].
    rewrite (IH (acc ++ ts)%list), (IH ts).
    destruct (auto_tags_loop str_lower n rs []); cbn [bind]; [|reflexivity].
    now rewrite app_assoc.
Qed.

(** X9: evaluating a rule list that is the concatenation of two lists gives
    the tags of the first followed by the tags of the second, and fails
    when either of them fails. *)
Theorem apply_auto_tags_app (str_lower : string -> string) (event : value)
    (r1 r2 : list value) :
  apply_auto_tags str_lower event (VList (r1 ++ r2)) =
  (t1 <- apply_auto_tags str_lower event (VList r1) ;;
   t2 <- apply_auto_tags str_lower event (VList r2) ;;
   Ok (t1 ++ t2)%list).
Proof.
  unfold apply_auto_tags.
  destruct (py_get event "Name" (VStr "")) as [n|]; cbn [bind]; [|reflexivity].
  destruct (py_lower str_lower n) as [name|]; cbn [bind py_iter]; [|reflexivity].
  rewrite auto_tags_loop_app.
  destruct (auto_tags_loop str_lower name r1 []) as [t1|]; cbn [bind];
    [|reflexivity].
  apply auto_tags_loop_acc.
Qed.

Lemma rule_step_ok_inv (str_lower : string -> string) (n : string)
    (rule : value) (ts : list value) :
  rule_step str_lower n rule = Ok ts -> well_formed_rule rule.
Proof.
  unfold rule_step. intros H.
  apply bind_ok in H. destruct H as [ty [Hty H]].
  apply py_get_ok in Hty. destruct Hty as [d [-> _]].
  cbn [py_get bind] in H.
  apply bind_ok in H. destruct H as [p [Hp _]].
  exists d. destruct (dict_get d "pattern" (VStr "")) as [| | |q| |] eqn:Hq;
    try discriminate.
  now exists q.
Qed.

(** On a rule of the configuration one turn of the loop raises nothing and
    appends at most the rule's tag. *)
Lemma rule_step_total (str_lower : string -> string) (n : string)
    (rule : value) :
  well_formed_rule rule ->
  exists d, rule = VDict d /\
    (rule_step str_lower n rule = Ok [] \/
     rule_step str_lower n rule = Ok [dict_get d "tag" VNone]).
Proof.
  intros [d [p [-> Hp]]]. exists d. split; [reflexivity|].
  unfold rule_step. cbn [py_get bind]. rewrite Hp. cbn [py_lower bind].
  destruct (negb (truthy (VStr (str_lower p))) ||
            negb (truthy (dict_get d "tag" VNone))); [now left|].
  match goal with |- context [if ?b then _ else _] => destruct b end;
    [now right | now left].
Qed.

Lemma auto_tags_loop_total (str_lower : string -> string) (n : string)
    (rs : list value) :
  Forall well_formed_rule rs ->
  forall acc, exists ts, auto_tags_loop str_lower n rs acc = Ok ts.
Proof.
  induction 1 as [|r rs Hr _ IH]; intros acc; cbn [auto_tags_loop].
  - now exists acc.
  - destruct (rule_step_total str_lower n r Hr) as [d [_ [-> | ->]]];
      cbn [bind]; apply IH.
Qed.


Lemma auto_tags_loop_ok_inv (str_lower : string -> string) (n : string)
    (rs : list value) :
  forall acc ts,
    auto_tags_loop str_lower n rs acc = Ok ts -> Forall well_formed_rule rs.
Proof.
  induction rs as [|x rs IH]; intros acc ts H; [constructor|].
  cbn [auto_tags_loop] in H.
  apply bind_ok in H. destruct H as [t [Ht H]].
  constructor; [exact (rule_step_ok_inv str_lower n x t Ht) | exact (IH _ _ H)].
Qed.

Lemma auto_tags_loop_raises (str_lower : string -> string) (n : string)
    (rs : list value) :
  forall acc e, auto_tags_loop str_lower n rs acc = Raise e -> e = AttributeError.
Proof.
  induction rs as [|x rs IH]; intros acc e H; [discriminate|].
  cbn [auto_tags_loop] in H.
  destruct (rule_step str_lower n x) as [t|e'] eqn:Hx; cbn [bind] in H;
    [exact (IH _ _ H)|].
  inversion H; subst e'. clear H. unfold rule_step in Hx.
  destruct x; try (cbn in Hx; now inversion Hx).
  cbn [py_get bind] in Hx.
  destruct (dict_get d "pattern" (VStr "")); try (cbn in Hx; now inversion Hx).
  cbn [py_lower bind] in Hx.
  destruct (negb (truthy (VStr (str_lower s))) ||
            negb (truthy (dict_get d "tag" VNone)));
    discriminate.
Qed.

(** X10: the Tag Rule Evaluator returns exactly when the event is an object
    whose name is a string or absent, the rules can be iterated, and every
    rule is an object whose pattern is a string or absent; otherwise it
    raises TypeError when the rules cannot be iterated and AttributeError in
    every other case. *)
Theorem apply_auto_tags_success_iff (str_lower : string -> string)
    (event rules : value) :
  ((exists ts, apply_auto_tags str_lower event rules = Ok ts) <->
   exists d n rs,
     event = VDict d /\ dict_get d "Name" (VStr "") = VStr n /\
     py_iter rules = Ok rs /\ Forall well_formed_rule rs) /\
  (forall e,
     apply_auto_tags str_lower event rules = Raise e ->
     e = AttributeError \/
     (e = TypeError /\ py_iter rules = Raise TypeError)).
Proof.
  split; [split|].
  - intros [ts H]. unfold apply_auto_tags in H.
    apply bind_ok in H. destruct H as [v [Hv H]].
    apply py_get_ok in Hv. destruct Hv as [d [-> ->]].
    apply bind_ok in H. destruct H as [name [Hn H]].
    apply bind_ok in H. destruct H as [rs [Hrs H]].
    destruct (dict_get d "Name" (VStr "")) as [| | |n| |] eqn:Hname;
      try discriminate.
    exists d, n, rs. repeat split; try assumption.
    exact (auto_tags_loop_ok_inv _ _ _ _ _ H).
  - intros [d [n [rs [-> [Hn [Hrs Hwf]]]]]].
    unfold apply_auto_tags. cbn [py_get bind]. rewrite Hn. cbn [py_lower bind].
    rewrite Hrs. cbn [bind].
    exact (auto_tags_loop_total str_lower (str_lower n) rs Hwf []).
  - intros e H. unfold apply_auto_tags in H.
    destruct event; try (cbn in H; inversion H; now left).
    cbn [py_get bind] in H.
    destruct (dict_get d "Name" (VStr "")); try (cbn in H; inversion H; now left).
    cbn [py_lower bind] in H.
    destruct (py_iter rules) as [rs|e'] eqn:Hrs; cbn [bind] in H.
    + left. exact (auto_tags_loop_raises _ _ _ _ _ H).
    + inversion H; subst e'. right.
      destruct rules; cbn in Hrs; try discriminate; inversion Hrs; now split.
Qed.

(** ** Source tags given as one string *)

Lemma has_char_cons (x c : ascii) (s : string) :
  has_char x (String c s) = Ascii.eqb x c || has_char x s.
Proof. reflexivity. Qed.

Lemma has_char_app (x : ascii) (a b : string) :
  has_char x (a ++ b) = has_char x a || has_char x b.
Proof.
  induction a as [|c a IH]; [reflexivity|].
  cbn [append]. rewrite !has_char_cons, IH. now rewrite orb_assoc.
Qed.

Lemma split_comma_aux_pieces (s : string) :
  forall cur p,
    has_char ","%char cur = false ->
    In p (split_comma_aux cur s) -> has_char ","%char p = false.
Proof.
  induction s as [|c s IH]; intros cur p Hcur Hin.
  - cbn in Hin. destruct Hin as [<- | []]. exact Hcur.
  - cbn [split_comma_aux] in Hin.
    destruct (Ascii.eqb c ","%char) eqn:Hc.
    + destruct Hin as [<- | Hin]; [exact Hcur|].
      exact (IH "" p eq_refl Hin).
    + apply (IH (cur ++ String c "") p); [|exact Hin].
      rewrite has_char_app, Hcur, has_char_cons.
      rewrite Ascii.eqb_sym, Hc. reflexivity.
Qed.

Lemma lstrip_has_char (x : ascii) (s : string) :
  has_char x (lstrip s) = true -> has_char x s = true.
Proof.
  induction s as [|c s IH]; cbn [lstrip]; [easy|].
  destruct (is_space c); [|easy].
  intros H. rewrite has_char_cons, (IH H). apply orb_true_r.
Qed.

Lemma rstrip_has_char (x : ascii) (s : string) :
  has_char x (rstrip s) = true -> has_char x s = true.
Proof.
  induction s as [|c s IH]; cbn [rstrip]; [easy|].
  destruct (rstrip s) as [|r rs] eqn:Hr.
  - destruct (is_space c); [discriminate|].
    rewrite !has_char_cons. intros H. apply orb_true_iff in H.
    destruct H as [-> | H]; [reflexivity | discriminate].
  - rewrite !has_char_cons. intros H. apply orb_true_iff in H.
    destruct H as [-> | H]; [reflexivity|]. rewrite (IH H). apply orb_true_r.
Qed.

Lemma lstrip_first (s : string) (c : ascii) :
  first_char (lstrip s) = Some c -> is_space c = false.
Proof.
  induction s as [|a s IH]; cbn [lstrip]; [discriminate|].
  destruct (is_space a) eqn:Ha; [exact IH|].
  cbn. intros H. inversion H. now subst.
Qed.

Lemma rstrip_first (s : string) (c : ascii) :
  first_char (rstrip s) = Some c -> first_char s = Some c.
Proof.
  destruct s as [|a s]; cbn [rstrip]; [easy|].
  destruct (rstrip s); [|easy].
  destruct (is_space a); [discriminate | easy].
Qed.

Lemma rstrip_last (s : string) (c : ascii) :
  last_char (rstrip s) = Some c -> is_space c = false.
Proof.
  induction s as [|a s IH]; cbn [rstrip]; [discriminate|].
  destruct (rstrip s) as [|r rs] eqn:Hr.
  - destruct (is_space a) eqn:Ha; [discriminate|].
    cbn. intros H. inversion H. now subst.
  - change (last_char (String a (String r rs)))
      with (match last_char (String r rs) with
            | Some l => Some l
            | None => Some a
            end).
    destruct (last_char (String r rs)) as [l|] eqn:Hl.
    + intros H. apply IH. exact H.
    + cbn in Hl. destruct (last_char rs); discriminate.
Qed.

Lemma is_ascii_app (a b : string) :
  is_ascii (a ++ b) = is_ascii a && is_ascii b.
Proof.
  induction a as [|c a IH]; [reflexivity|].
  cbn [append is_ascii]. now rewrite IH, andb_assoc.
Qed.

Lemma split_comma_aux_ascii (s : string) :
  forall cur p,
    is_ascii cur = true -> is_ascii s = true ->
    In p (split_comma_aux cur s) -> is_ascii p = true.
Proof.
  induction s as [|c s IH]; intros cur p Hcur Hs Hin.
  - cbn in Hin. destruct Hin as [<- | []]. exact Hcur.
  - cbn [is_ascii] in Hs. apply andb_true_iff in Hs. destruct Hs as [Hc Hs].
    cbn [split_comma_aux] in Hin.
    destruct (Ascii.eqb c ","%char).
    + destruct Hin as [<- | Hin]; [exact Hcur|].
      exact (IH "" p eq_refl Hs Hin).
    + apply (IH (cur ++ String c "") p); [|exact Hs|exact Hin].
      rewrite is_ascii_app, Hcur. cbn [is_ascii]. now rewrite Hc.
Qed.

(** X11: every tag read from a comma separated tag string of ASCII text is
    a string that is not empty, holds no comma, and neither starts nor ends
    with white space, [str.strip] being the runtime's. *)
Theorem parsed_tags_are_clean (str_strip : string -> string) (s : string)
    (tag : value) :
  strips_ascii str_strip ->
  is_ascii s = true ->
  In tag (match parse_wa_tags str_strip (VStr s) with
          | VList l => l
          | _ => []
          end) ->
  exists t, tag = VStr t /\ t <> "" /\ clean_tag t.
Proof.
  intros Hstrip Hascii. cbn [parse_wa_tags]. intros H.
  apply in_map_iff in H. destruct H as [t [<- Ht]].
  apply filter_In in Ht. destruct Ht as [Hin Hne].
  apply in_map_iff in Hin. destruct Hin as [p [<- Hp]].
  rewrite (Hstrip p (split_comma_aux_ascii s "" p eq_refl Hascii Hp)) in *.
  exists (strip p). split; [reflexivity|].
  apply truthy_str in Hne. split; [assumption|].
  unfold clean_tag. split; [|split].
  - pose proof (split_comma_aux_pieces s "" p eq_refl Hp) as Hc.
    destruct (has_char ","%char (strip p)) eqn:E; [|reflexivity].
    unfold strip in E. apply rstrip_has_char, lstrip_has_char in E. congruence.
  - unfold strip in *. destruct (rstrip (lstrip p)) as [|c r] eqn:E;
      [contradiction|].
    exists c. split; [reflexivity|].
    apply (lstrip_first p). apply rstrip_first. now rewrite E.
  - unfold strip in *. destruct (last_char (rstrip (lstrip p))) as [c|] eqn:E.
    + exists c. split; [reflexivity | exact (rstrip_last _ _ E)].
    + destruct (rstrip (lstrip p)) as [|a r]; [contradiction|].
      cbn in E. destruct (last_char r); discriminate.
Qed.

Lemma parsed_tags_are_clean_witness :
  exists t, VStr "b c" = VStr t /\ t <> "" /\ clean_tag t.
Proof.
  apply (parsed_tags_are_clean strip " a ,, b c ,").
  - intros s _. reflexivity.
  - reflexivity.
  - cbn. right. left. reflexivity.
Defined.

Lemma all_space_no_comma (p : string) :
  all_space p = true -> has_char ","%char p = false.
Proof.
  induction p as [|c p IH]; [reflexivity|].
  cbn [all_space]. intros H. apply andb_true_iff in H. destruct H as [Hc Hp].
  rewrite has_char_cons, (IH Hp), orb_false_r.
  destruct (Ascii.eqb_spec ","%char c) as [<-|]; [discriminate | reflexivity].
Qed.

Lemma split_comma_aux_app (t : string) :
  forall cur rest,
    has_char ","%char t = false ->
    split_comma_aux cur (t ++ rest) = split_comma_aux (cur ++ t) rest.
Proof.
  induction t as [|c t IH]; intros cur rest H.
  - cbn [append]. now rewrite append_nil_r.
  - rewrite has_char_cons in H. apply orb_false_iff in H. destruct H as [Hc Ht].
    cbn [append split_comma_aux]. rewrite Ascii.eqb_sym, Hc.
    rewrite (IH _ _ Ht). now rewrite append_assoc.
Qed.

Lemma split_comma_aux_concat (ps : list string) :
  forall cur p,
    Forall (fun q => has_char ","%char q = false) (p :: ps) ->
    split_comma_aux cur (String.concat "," (p :: ps)) = (cur ++ p) :: ps.
Proof.
  induction ps as [|q ps IH]; intros cur p H; inversion H as [|x l Hp Hps]; subst.
  - cbn [String.concat]. rewrite <- (append_nil_r p) at 1.
    rewrite (split_comma_aux_app p cur "" Hp). reflexivity.
  - change (String.concat "," (p :: q :: ps))
      with (p ++ "," ++ String.concat "," (q :: ps)).
    rewrite (split_comma_aux_app p cur _ Hp).
    cbn [append split_comma_aux Ascii.eqb Bool.eqb]. cbn.
    f_equal. exact (IH "" q Hps).
Qed.

Lemma lstrip_app_space (pl x : string) :
  all_space pl = true -> lstrip (pl ++ x) = lstrip x.
Proof.
  induction pl as [|c pl IH]; [reflexivity|].
  cbn [all_space append lstrip]. intros H. apply andb_true_iff in H.
  destruct H as [-> Hp]. exact (IH Hp).
Qed.

Lemma lstrip_id (x : string) (c : ascii) :
  first_char x = Some c -> is_space c = false -> lstrip x = x.
Proof.
  destruct x as [|a x]; [discriminate|]. cbn. intros H Hc.
  inversion H; subst a. now rewrite Hc.
Qed.

Lemma rstrip_all_space (p : string) : all_space p = true -> rstrip p = "".
Proof.
  induction p as [|c p IH]; [reflexivity|].
  cbn [all_space rstrip]. intros H. apply andb_true_iff in H.
  destruct H as [Hc Hp]. now rewrite (IH Hp), Hc.
Qed.

Lemma rstrip_app_space (x pr : string) :
  all_space pr = true -> rstrip (x ++ pr) = rstrip x.
Proof.
  intros Hp. induction x as [|c x IH].
  - cbn [append]. now apply rstrip_all_space.
  - cbn [append rstrip]. now rewrite IH.
Qed.

Lemma rstrip_id (t : string) (c : ascii) :
  last_char t = Some c -> is_space c = false -> rstrip t = t.
Proof.
  induction t as [|a t IH]; [discriminate|].
  cbn [last_char rstrip]. destruct (last_char t) as [l|] eqn:Hl.
  - intros H Hc. rewrite (IH H Hc). destruct t; [discriminate | reflexivity].
  - intros H Hc. inversion H; subst a.
    destruct t as [|b t]; [cbn; now rewrite Hc|].
    cbn in Hl. destruct (last_char t); discriminate.
Qed.

Lemma strip_padded (pl t pr : string) :
  all_space pl = true -> clean_tag t -> all_space pr = true ->
  strip (pl ++ t ++ pr) = t.
Proof.
  intros Hl [_ [[a [Ha Hsa]] [b [Hb Hsb]]]] Hr. unfold strip.
  rewrite (lstrip_app_space pl _ Hl).
  assert (Hfirst : first_char (t ++ pr) = Some a).
  { destruct t; [discriminate | exact Ha]. }
  rewrite (lstrip_id _ a Hfirst Hsa), (rstrip_app_space t pr Hr).
  exact (rstrip_id t b Hb Hsb).
Qed.

Lemma all_space_ascii (p : string) : all_space p = true -> is_ascii p = true.
Proof.
  induction p as [|c p IH]; [reflexivity|].
  cbn [all_space is_ascii]. intros H. apply andb_true_iff in H.
  destruct H as [Hc Hp]. rewrite (IH Hp), andb_true_r.
  unfold is_space in Hc. apply Nat.ltb_lt.
  apply orb_true_iff in Hc.
  destruct Hc as [Hc | Hc]; apply andb_true_iff in Hc; destruct Hc as [_ Hc];
    apply Nat.leb_le in Hc; lia.
Qed.

(** X12: a tag string of ASCII text written by joining tags with commas,
    each tag with any white space around it, is read back as exactly those
    tags, in order, provided every tag holds no comma and neither starts
    nor ends with white space, [str.strip] being the runtime's. *)
Theorem parse_joined_tags (str_strip : string -> string)
    (pieces : list (string * string * string)) :
  strips_ascii str_strip ->
  Forall (fun x => all_space (fst (fst x)) = true /\
                   (clean_tag (snd (fst x)) /\ is_ascii (snd (fst x)) = true) /\
                   all_space (snd x) = true) pieces ->
  parse_wa_tags str_strip
    (VStr (String.concat ","
             (map (fun x => fst (fst x) ++ snd (fst x) ++ snd x) pieces)))
  = VList (map (fun x => VStr (snd (fst x))) pieces).
Proof.
  intros Hstrip H. cbn [parse_wa_tags]. f_equal.
  destruct pieces as [|x pieces].
  { cbn. rewrite (Hstrip "" eq_refl). reflexivity. }
  unfold split_comma. cbn [map].
  rewrite split_comma_aux_concat.
  2:{ change (Forall (fun q => has_char ","%char q = false)
                (map (fun x => fst (fst x) ++ snd (fst x) ++ snd x) (x :: pieces))).
      apply Forall_map. eapply Forall_impl; [|exact H].
      intros [[pl t] pr] [Hl [[[Hc _] _] Hr]]. cbn [fst snd] in *.
      rewrite !has_char_app, Hc, (all_space_no_comma pl Hl),
        (all_space_no_comma pr Hr). reflexivity. }
  cbn [append].
  change ((fst (fst x) ++ snd (fst x) ++ snd x)
          :: map (fun x => fst (fst x) ++ snd (fst x) ++ snd x) pieces)
    with (map (fun x => fst (fst x) ++ snd (fst x) ++ snd x) (x :: pieces)).
  change (VStr (snd (fst x)) :: map (fun x => VStr (snd (fst x))) pieces)
    with (map (fun x => VStr (snd (fst x))) (x :: pieces)).
  induction H as [|[[pl t] pr] l [Hl [[Hc Ha] Hr]] _ IH]; [reflexivity|].
  cbn [map fst snd filter] in *.
  rewrite (Hstrip (pl ++ t ++ pr)).
  2:{ rewrite !is_ascii_app, Ha, (all_space_ascii pl Hl), (all_space_ascii pr Hr).
      reflexivity. }
  rewrite (strip_padded pl t pr Hl Hc Hr).
  assert (Hne : truthy (VStr t) = true).
  { apply truthy_str. destruct Hc as [_ [[c [Hf _]] _]].
    intros ->. discriminate. }
  rewrite Hne. cbn [map]. f_equal. exact IH.
Qed.

Lemma parse_joined_tags_witness :
  parse_wa_tags strip (VStr "hiking, wine tasting ,outdoors")
  = VList [VStr "hiking"; VStr "wine tasting"; VStr "outdoors"].
Proof.
  refine (parse_joined_tags strip
    [("", "hiking", ""); (" ", "wine tasting", " "); ("", "outdoors", "")] _ _).
  - intros s _. reflexivity.
  - repeat constructor; cbn; eexists; split; reflexivity.
Defined.

(** ** The Event Transformer: what it reads and what it copies *)

(** X13: the transformation of an event depends on thirteen of its keys
    only: two event objects that agree on them are transformed alike,
    whatever else they hold. *)
Theorem transform_event_reads_consumed_keys (rt : runtime) (d1 d2 : dict)
    (org_config : value) :
  (forall k, In k consumed_keys -> lookup k d1 = lookup k d2) ->
  transform_event rt (VDict d1) org_config = transform_event rt (VDict d2) org_config.
Proof.
  intros H.
  assert (Hget : forall k dflt, In k consumed_keys ->
                   dict_get d1 k dflt = dict_get d2 k dflt).
  { intros k dflt Hk. unfold dict_get. now rewrite (H k Hk). }
  unfold transform_event, collect_tags, spots_of, event_url_of, description_of,
    apply_auto_tags, derive_availability.
  cbn [py_get bind].
  rewrite !(Hget "Tags") by (cbn; tauto).
  rewrite !(Hget "Name") by (cbn; tauto).
  rewrite !(Hget "StartDate") by (cbn; tauto).
  rewrite !(Hget "RegistrationsLimit") by (cbn; tauto).
  rewrite !(Hget "ConfirmedRegistrationsCount") by (cbn; tauto).
  rewrite !(Hget "Id") by (cbn; tauto).
  rewrite !(Hget "Url") by (cbn; tauto).
  rewrite !(Hget "EndDate") by (cbn; tauto).
  rewrite !(Hget "Location") by (cbn; tauto).
  rewrite !(Hget "Details") by (cbn; tauto).
  rewrite !(Hget "RegistrationUrl") by (cbn; tauto).
  rewrite !(Hget "RegistrationEnabled") by (cbn; tauto).
  rewrite !(Hget "AccessLevel") by (cbn; tauto).
  reflexivity.
Qed.

Lemma transform_event_reads_consumed_keys_witness :
  transform_event reference_runtime
    (VDict [("Id", VInt 9); ("Name", VStr "Hike"); ("EventType", VStr "Regular")])
    (VDict [])
  = transform_event reference_runtime
      (VDict [("Name", VStr "Hike"); ("Id", VInt 9);
              ("PendingRegistrationsCount", VInt 2)])
      (VDict []).
Proof.
  apply transform_event_reads_consumed_keys.
  intros k Hk. cbn in Hk.
  repeat (destruct Hk as [<- | Hk]; [reflexivity|]). destruct Hk.
Defined.

(** X14: in the output of a successful transformation each copied field is
    the value of its key in the raw event, of whatever type and null
    included, and its default only when the key is absent (the empty
    string, true for [registrationEnabled], Public for [accessLevel], null
    for [id]); the description is the [DescriptionHtml] of [Details] when
    [Details] is an object and the empty string otherwise. *)
Theorem transform_event_copies_fields (rt : runtime) (d : dict)
    (org_config : value) (out : normalized_event) :
  transform_event rt (VDict d) org_config = Ok out ->
  (forall k dflt field,
     In (k, dflt, field) copied_fields ->
     (lookup k d = None -> field out = dflt) /\
     (forall v, lookup k d = Some v -> field out = v)) /\
  (forall details,
     lookup "Details" d = Some (VDict details) ->
     description out = dict_get details "DescriptionHtml" (VStr "")) /\
  ((forall details, lookup "Details" d <> Some (VDict details)) ->
   description out = VStr "").
Proof.
  unfold transform_event. intros H.
  apply bind_ok in H. destruct H as [combined [_ H]].
  apply bind_ok in H. destruct H as [all_tags [_ H]].
  apply bind_ok in H. destruct H as [spots [_ H]].
  cbn [py_get bind] in H.
  apply bind_ok in H. destruct H as [u [_ H]].
  apply bind_ok in H. destruct H as [ds [Hds H]].
  inversion H; subst out; clear H.
  split; [|split].
  - intros k dflt field Hin. cbn in Hin.
    repeat (destruct Hin as [Hin | Hin];
            [inversion Hin; subst; cbn; unfold dict_get;
             split; [intros -> | intros v ->]; reflexivity|]).
    destruct Hin.
  - intros details Hd. cbn [description]. unfold description_of in Hds.
    cbn [py_get bind] in Hds. unfold dict_get in Hds at 1 2. rewrite Hd in Hds.
    cbn [py_get] in Hds. now inversion Hds.
  - intros Hnd. cbn [description]. unfold description_of in Hds.
    cbn [py_get bind] in Hds. unfold dict_get in Hds at 1.
    destruct (lookup "Details" d) as [v|] eqn:Hl.
    + destruct v; try (now inversion Hds). exfalso. now apply (Hnd d0).
    + now inversion Hds.
Qed.

Lemma transform_event_copies_fields_witness :
  match transform_event reference_runtime
          (VDict [("Name", VStr "Hike"); ("Location", VNone)]) (VDict []) with
  | Ok out => location out = VNone /\ accessLevel out = VStr "Public"
  | Raise _ => False
  end.
Proof.
  destruct (transform_event reference_runtime
              (VDict [("Name", VStr "Hike"); ("Location", VNone)]) (VDict []))
    as [out|e] eqn:H.
  - pose proof (proj1 (transform_event_copies_fields reference_runtime
                         _ _ out H)) as Hc.
    split.
    + apply (proj2 (Hc "Location" (VStr "") location ltac:(cbn; tauto)) VNone).
      reflexivity.
    + apply (proj1 (Hc "AccessLevel" (VStr "Public") accessLevel
                      ltac:(cbn; tauto))).
      reflexivity.
  - vm_compute in H. discriminate.
Defined.

(** ** The Event Transformer: where the tags come from, and when it returns *)

Lemma collect_tags_shape (rt : runtime) (d : dict) (org_config : value)
    (combined : list value) :
  collect_tags rt (VDict d) org_config = Ok combined ->
  exists wa rules auto tt a w,
    parse_wa_tags (rt_strip rt) (dict_get d "Tags" (VList [])) = VList wa /\
    auto_tag_rules_of org_config = Ok rules /\
    apply_auto_tags (rt_lower rt) (VDict d) rules = Ok auto /\
    derive_time_of_day (rt_fromisoformat rt) (dict_get d "StartDate" (VStr "")) org_config = Ok tt /\
    derive_availability (VDict d) = Ok a /\
    derive_weekend (rt_fromisoformat rt) (dict_get d "StartDate" (VStr "")) = Ok w /\
    combined = (wa ++ auto ++ derived_tags tt a w)%list.
Proof.
  unfold collect_tags. cbn [py_get bind]. intros H.
  apply bind_ok in H. destruct H as [rules [Hrules H]].
  apply bind_ok in H. destruct H as [auto [Hauto H]].
  apply bind_ok in H. destruct H as [tt [Htt H]].
  apply bind_ok in H. destruct H as [a [Ha H]].
  apply bind_ok in H. destruct H as [w [Hw H]].
  unfold py_concat in H.
  destruct (parse_wa_tags (rt_strip rt) (dict_get d "Tags" (VList []))) as [| | | |wa|] eqn:Hwa;
    try discriminate.
  exists wa, rules, auto, tt, a, w. repeat split; try assumption.
  inversion H; subst combined; clear H. f_equal. unfold derived_tags.
  destruct (time_tag_range (rt_fromisoformat rt) _ _ tt Htt) as [-> | [-> | [-> | ->]]];
    destruct w; cbn; rewrite <- ?app_assoc; try reflexivity;
    now rewrite ?app_nil_r.
Qed.

(** X15: the string tags of the output of a successful transformation are
    exactly the source tags, the tags of the matching rules, the
    time-of-day tag when there is one, the availability tag, and
    [day:weekend] when the start falls on a weekend: nothing else is added
    and none of them is lost. *)
Theorem tag_provenance (rt : runtime) (d : dict) (org_config : value)
    (out : normalized_event) :
  transform_event rt (VDict d) org_config = Ok out ->
  exists wa rules auto,
    parse_wa_tags (rt_strip rt) (dict_get d "Tags" (VList [])) = VList wa /\
    auto_tag_rules_of org_config = Ok rules /\
    apply_auto_tags (rt_lower rt) (VDict d) rules = Ok auto /\
    forall s,
      In (VStr s) (tags out) <->
      In (VStr s) wa \/ In (VStr s) auto \/
      derive_time_of_day (rt_fromisoformat rt) (dict_get d "StartDate" (VStr "")) org_config
        = Ok (Some s) \/
      derive_availability (VDict d) = Ok s \/
      (derive_weekend (rt_fromisoformat rt) (dict_get d "StartDate" (VStr "")) = Ok true /\
       s = "day:weekend").
Proof.
  intros H. apply transform_event_inv in H.
  destruct H as [d' [combined [Hd [Hc [Hs _]]]]]. inversion Hd; subst d'.
  apply collect_tags_shape in Hc.
  destruct Hc as [wa [rules [auto [tt [a [w [Hwa [Hr [Ha [Htt [Hav [Hw ->]]]]]]]]]]]].
  apply py_list_set_spec in Hs. destruct Hs as [_ [Hsound Hcomplete]].
  exists wa, rules, auto. repeat split; try assumption.
  - intros Hin. apply Hsound in Hin.
    apply in_app_or in Hin. destruct Hin as [Hin | Hin]; [now left|].
    apply in_app_or in Hin. destruct Hin as [Hin | Hin]; [right; now left|].
    right. right. unfold derived_tags in Hin.
    apply in_app_or in Hin. destruct Hin as [Hin | Hin].
    { left. destruct tt as [tg|]; [|destruct Hin].
      destruct Hin as [Hin | []]. inversion Hin; subst. exact Htt. }
    apply in_app_or in Hin. destruct Hin as [Hin | Hin].
    { right. left. destruct Hin as [Hin | []]. inversion Hin; subst. exact Hav. }
    right. right. destruct w; [|destruct Hin].
    destruct Hin as [Hin | []]. inversion Hin. now split.
  - intros Hin.
    assert (Hcomb : In (VStr s) (wa ++ auto ++ derived_tags tt a w)%list).
    { destruct Hin as [Hin | [Hin | [Hin | [Hin | [Hin ->]]]]].
      - apply in_or_app. now left.
      - apply in_or_app. right. apply in_or_app. now left.
      - rewrite Htt in Hin. inversion Hin; subst tt.
        apply in_or_app. right. apply in_or_app. right. cbn. now left.
      - rewrite Hav in Hin. inversion Hin; subst a.
        apply in_or_app. right. apply in_or_app. right. unfold derived_tags.
        apply in_or_app. right. cbn. now left.
      - rewrite Hw in Hin. inversion Hin; subst w.
        apply in_or_app. right. apply in_or_app. right. unfold derived_tags.
        apply in_or_app. right. cbn. right. now left. }
    destruct (Hcomplete _ Hcomb) as [y [Hy Heq]].
    apply py_eq_str in Heq. now subst y.
Qed.

Lemma tag_provenance_witness :
  match transform_event reference_runtime
          (VDict [("Name", VStr "Hike"); ("Tags", VStr "outdoors, free");
                  ("StartDate", VStr "2024-03-09T08:00:00Z")]) (VDict []) with
  | Ok out => In (VStr "day:weekend") (tags out)
  | Raise _ => False
  end.
Proof.
  destruct (transform_event reference_runtime
              (VDict [("Name", VStr "Hike"); ("Tags", VStr "outdoors, free");
                      ("StartDate", VStr "2024-03-09T08:00:00Z")]) (VDict []))
    as [out|e] eqn:H.
  - destruct (tag_provenance reference_runtime _ _ out H)
      as [wa [rules [auto [_ [_ [_ Hiff]]]]]].
    apply Hiff. right. right. right. right. split; reflexivity.
  - vm_compute in H. discriminate.
Defined.





(** ** The built-in configurations *)

Lemma transform_event_time_ext (rt : runtime) (c1 c2 : value) :
  auto_tag_rules_of c1 = auto_tag_rules_of c2 ->
  (forall v, derive_time_of_day (rt_fromisoformat rt) v c1 = derive_time_of_day (rt_fromisoformat rt) v c2) ->
  forall event, transform_event rt event c1 = transform_event rt event c2.
Proof.
  intros Hr Hd event. unfold transform_event, collect_tags.
  destruct (py_get event "Tags" (VList [])); cbn [bind]; [|reflexivity].
  rewrite Hr. destruct (auto_tag_rules_of c2); cbn [bind]; [|reflexivity].
  destruct (apply_auto_tags (rt_lower rt) event a0); cbn [bind]; [|reflexivity].
  destruct (py_get event "StartDate" (VStr "")); cbn [bind]; [|reflexivity].
  now rewrite Hd.
Qed.

Lemma default_time_of_day (f : iso_parser) (v : value) (c : value) :
  time_config_of c = Ok time_of_day_defaults \/ time_config_of c = Ok (VDict []) ->
  derive_time_of_day f v c = derive_time_of_day f v (VDict []).
Proof.
  intros H. unfold derive_time_of_day.
  destruct (parse_start f v) as [dt|e]; cbn [bind]; [|reflexivity].
  destruct H as [-> | ->]; reflexivity.
Qed.

(** X17: the built-in configurations of the two storage backends, which
    differ in the naming of their keys, and the empty configuration give
    the same transformation of every event; so does a first run, when no
    configuration is stored, on either backend. *)
Theorem default_configs_agree (rt : runtime) (event : value) :
  transform_event rt event google_default_config =
    transform_event rt event (VDict []) /\
  transform_event rt event local_default_config =
    transform_event rt event (VDict []) /\
  (forall c, google_load_config None = Ok c ->
             transform_event rt event c = transform_event rt event (VDict [])) /\
  (forall c, local_load_config None = Ok c ->
             transform_event rt event c = transform_event rt event (VDict [])).
Proof.
  assert (Hg : transform_event rt event google_default_config =
               transform_event rt event (VDict [])).
  { apply transform_event_time_ext; [reflexivity|].
    intros v. apply default_time_of_day. now left. }
  assert (Hl : transform_event rt event local_default_config =
               transform_event rt event (VDict [])).
  { apply transform_event_time_ext; [reflexivity|].
    intros v. apply default_time_of_day. now left. }
  repeat split; try assumption.
  - intros c H. inversion H. exact Hg.
  - intros c H. inversion H. exact Hl.
Qed.

(** ** The pages of [get_events] *)

Lemma fetch_pages_walk (get : http_get) (url : string)
    (pages : list (string * list value)) (last_next : value) :
  serves get url pages last_next ->
  forall requests acc,
    fetch_pages (List.length pages + requests) get url
      (first_url pages last_next) acc =
    fetch_pages requests get url last_next
      (acc ++ List.concat (map snd pages))%list.
Proof.
  induction pages as [|[u evs] rest IH]; intros Hs requests acc.
  - cbn. now rewrite app_nil_r.
  - destruct Hs as [Hu [[d [Hget [Hev Hnext]]] Hrest]].
    cbn [List.length Nat.add first_url fetch_pages].
    apply truthy_str in Hu. rewrite Hu. cbn [eq_str]. rewrite Hget.
    unfold py_extend. rewrite Hev. cbn [py_iter bind]. rewrite Hnext.
    change (match rest with
            | [] => last_next
            | (u', _) :: _ => VStr u'
            end) with (first_url rest last_next).
    rewrite (IH Hrest). cbn [map snd List.concat]. now rewrite app_assoc.
Qed.

(** X18: when the server holds a chain of pages, each an object with an
    event list and the URL of the next page, [get_events] returns the
    events of all pages in page order.  The chain ends with a page that has
    no next URL, and then as many requests as there are pages suffice, or
    with a URL that answers a bare list, whose items come last. *)
Theorem get_events_follows_pages (get : http_get) (url : string)
    (pages : list (string * list value)) (last_next : value)
    (tail : list value) (requests : nat) :
  serves get url pages last_next ->
  first_url pages last_next = VStr url ->
  (truthy last_next = false /\ tail = [] /\
   (List.length pages <= requests)%nat) \/
  (truthy last_next = true /\
   get last_next (eq_str last_next url) = Ok (VList tail) /\
   (List.length pages < requests)%nat) ->
  get_events_pages requests get url =
  Some (Ok (List.concat (map snd pages) ++ tail)%list).
Proof.
  intros Hs Hfirst Hend. unfold get_events_pages. rewrite <- Hfirst.
  destruct Hend as [[Hlast [-> Hreq]] | [Hlast [Hget Hreq]]].
  - replace requests
      with (List.length pages + (requests - List.length pages))%nat by lia.
    rewrite (fetch_pages_walk get url pages last_next Hs). cbn [app].
    rewrite app_nil_r.
    destruct (requests - List.length pages)%nat; cbn [fetch_pages];
      now rewrite Hlast.
  - replace requests
      with (List.length pages + S (requests - S (List.length pages)))%nat
      by lia.
    rewrite (fetch_pages_walk get url pages last_next Hs). cbn [app].
    cbn [fetch_pages]. rewrite Hlast, Hget. cbn.
    destruct (requests - S (List.length pages))%nat; reflexivity.
Qed.

Lemma get_events_follows_pages_witness :
  let get : http_get := fun page_url with_params =>
    if eq_str page_url "https://api/events" && with_params then
      Ok (VDict [("Events", VList [VInt 1; VInt 2]);
                 ("ResultNextPageUrl", VStr "https://api/events?page=2")])
    else if eq_str page_url "https://api/events?page=2" && negb with_params then
      Ok (VDict [("Events", VList [VInt 3])])
    else Raise HTTPError in
  get_events_pages 5 get "https://api/events"
  = Some (Ok [VInt 1; VInt 2; VInt 3]).
Proof.
  intros get.
  refine (get_events_follows_pages get "https://api/events"
    [("https://api/events", [VInt 1; VInt 2]);
     ("https://api/events?page=2", [VInt 3])] VNone [] 5 _ eq_refl _).
  - cbn. repeat split; try discriminate; eexists; repeat split.
  - left. cbn. repeat split. lia.
Defined.

(** X19: a page that cannot be fetched fails the whole fetch with the
    exception of that request, whatever the pages before it held: no
    partial list is returned. *)
Theorem get_events_fails_as_a_whole (get : http_get) (url : string)
    (pages : list (string * list value)) (bad : value) (e : exn)
    (requests : nat) :
  serves get url pages bad ->
  first_url pages bad = VStr url ->
  truthy bad = true ->
  get bad (eq_str bad url) = Raise e ->
  (List.length pages < requests)%nat ->
  get_events_pages requests get url = Some (Raise e).
Proof.
  intros Hs Hfirst Hbad Hget Hreq. unfold get_events_pages. rewrite <- Hfirst.
  replace requests
    with (List.length pages + S (requests - S (List.length pages)))%nat by lia.
  rewrite (fetch_pages_walk get url pages bad Hs).
  cbn [fetch_pages]. now rewrite Hbad, Hget.
Qed.

Lemma get_events_fails_as_a_whole_witness :
  let get : http_get := fun page_url with_params =>
    if eq_str page_url "https://api/events" && with_params then
      Ok (VDict [("Events", VList [VInt 1; VInt 2]);
                 ("ResultNextPageUrl", VStr "https://api/events?page=2")])
    else Raise HTTPError in
  get_events_pages 5 get "https://api/events" = Some (Raise HTTPError).
Proof.
  intros get.
  refine (get_events_fails_as_a_whole get "https://api/events"
    [("https://api/events", [VInt 1; VInt 2])]
    (VStr "https://api/events?page=2") HTTPError 5 _ eq_refl eq_refl eq_refl _).
  - cbn. repeat split; try discriminate; eexists; repeat split.
  - cbn. lia.
Defined.

(** X20: the loop has no guard against a page that links to itself: when
    the answer to a page URL names that same URL as the next page, the
    fetch never returns, with any number of requests. *)
Theorem get_events_loops_on_self_link (get : http_get) (url u : string)
    (d : dict) (evs : list value) :
  u <> "" ->
  get (VStr u) (String.eqb u url) = Ok (VDict d) ->
  dict_get d "Events" (VList []) = VList evs ->
  dict_get d "ResultNextPageUrl" VNone = VStr u ->
  forall requests acc, fetch_pages requests get url (VStr u) acc = None.
Proof.
  intros Hu Hget Hev Hnext requests.
  apply truthy_str in Hu.
  induction requests as [|n IH]; intros acc; cbn [fetch_pages]; rewrite Hu;
    [reflexivity|].
  cbn [eq_str]. rewrite Hget. unfold py_extend. rewrite Hev.
  cbn [py_iter bind]. rewrite Hnext. apply IH.
Qed.

Lemma get_events_loops_on_self_link_witness :
  let get : http_get := fun page_url with_params =>
    Ok (VDict [("Events", VList [VInt 1]);
               ("ResultNextPageUrl", VStr "https://api/events")]) in
  get_events_pages 1000 get "https://api/events" = None.
Proof.
  intros get.
  exact (get_events_loops_on_self_link get "https://api/events"
    "https://api/events"
    [("Events", VList [VInt 1]); ("ResultNextPageUrl", VStr "https://api/events")]
    [VInt 1] ltac:(discriminate) eq_refl eq_refl eq_refl 1000 []).
Defined.

(** ** The token of the Source Client *)

Lemma expiry_after_spec (now seconds : Z) :
  (-999999999 <= seconds / 86400 <= 999999999 /\
   0 <= now + seconds * 1000000 < datetime_range ->
   expiry_after now seconds = Some (now + seconds * 1000000)) /\
  (~ (-999999999 <= seconds / 86400 <= 999999999 /\
      0 <= now + seconds * 1000000 < datetime_range) ->
   expiry_after now seconds = None).
Proof.
  unfold expiry_after, timedelta_seconds, datetime_add.
  destruct (Z.leb_spec (-999999999) (seconds / 86400));
    destruct (Z.leb_spec (seconds / 86400) 999999999); cbn [andb];
    try (split; [intros [[? ?] _]; lia | reflexivity]).
  destruct (Z.leb_spec 0 (now + seconds * 1000000));
    destruct (Z.ltb_spec (now + seconds * 1000000) datetime_range); cbn [andb];
    split; try reflexivity; try (intros [_ [? ?]]; lia).
  intros Hno. exfalso. apply Hno. lia.
Qed.

Lemma next_call_sends_a_request (self : wa_client) (later now3 : Z)
    (post : result value) :
  token_is_fresh self later = false ->
  snd (_get_token self later now3 post) = 1%nat.
Proof.
  intros Hstale. unfold _get_token. rewrite Hstale.
  destruct post as [d|e]; [|reflexivity].
  destruct (py_getitem d "access_token"); try reflexivity.
  destruct (py_getitem d "expires_in"); try reflexivity.
  destruct (py_sub t0 (VInt 60)) as [secs|]; [|reflexivity].
  destruct (expiry_after now3 secs); reflexivity.
Qed.

(** X21: when the announced lifetime less 60 seconds is a [timedelta] and
    the time of the refresh plus it is a [datetime], a token obtained by a
    refresh is handed out again, with no request and no change of the
    client, by every call whose clock reads less than that sum; from that
    moment on a call sends a request again, and with a lifetime of 60
    seconds or less no later call reuses the token.  Otherwise the refresh
    raises OverflowError after its one request, and leaves the new token
    stored beside the expiry from before the call. *)
Theorem token_refresh_then_reuse (self : wa_client) (now1 now2 : Z)
    (data : dict) (access_token : value) (expires_in : Z) :
  token_is_fresh self now1 = false ->
  lookup "access_token" data = Some access_token ->
  truthy access_token = true ->
  lookup "expires_in" data = Some (VInt expires_in) ->
  (-999999999 <= (expires_in - 60) / 86400 <= 999999999 /\
   0 <= now2 + (expires_in - 60) * 1000000 < datetime_range ->
   exists self',
     _get_token self now1 now2 (Ok (VDict data))
       = (self', Token access_token, 1%nat) /\
     (forall later now3 post,
        later < now2 + (expires_in - 60) * 1000000 ->
        _get_token self' later now3 post = (self', Token access_token, 0%nat)) /\
     (forall later now3 post,
        now2 + (expires_in - 60) * 1000000 <= later ->
        snd (_get_token self' later now3 post) = 1%nat) /\
     (expires_in <= 60 ->
      forall later now3 post,
        now2 <= later -> snd (_get_token self' later now3 post) = 1%nat)) /\
  (~ (-999999999 <= (expires_in - 60) / 86400 <= 999999999 /\
      0 <= now2 + (expires_in - 60) * 1000000 < datetime_range) ->
   _get_token self now1 now2 (Ok (VDict data))
     = ({| token := access_token; token_expires := token_expires self |},
        TokenOverflowError, 1%nat)).
Proof.
  intros Hstale Htok Htruthy Hexp.
  assert (Hcall : _get_token self now1 now2 (Ok (VDict data)) =
            match expiry_after now2 (expires_in - 60) with
            | Some expires =>
                ({| token := access_token; token_expires := Some expires |},
                 Token access_token, 1%nat)
            | None =>
                ({| token := access_token;
                    token_expires := token_expires self |},
                 TokenOverflowError, 1%nat)
            end).
  { unfold _get_token. rewrite Hstale. cbn [py_getitem]. rewrite Htok, Hexp.
    reflexivity. }
  split.
  - intros Hrange.
    rewrite (proj1 (expiry_after_spec now2 (expires_in - 60)) Hrange) in Hcall.
    exists {| token := access_token;
              token_expires := Some (now2 + (expires_in - 60) * 1000000) |}.
    assert (Hrequest : forall later now3 post,
      now2 + (expires_in - 60) * 1000000 <= later ->
      snd (_get_token
             {| token := access_token;
                token_expires := Some (now2 + (expires_in - 60) * 1000000) |}
             later now3 post) = 1%nat).
    { intros later now3 post Hlate. apply next_call_sends_a_request.
      unfold token_is_fresh. cbn [token token_expires]. rewrite Htruthy.
      cbn [andb]. apply Z.ltb_ge. exact Hlate. }
    split; [exact Hcall | split; [|split]].
    + intros later now3 post Hearly. unfold _get_token, token_is_fresh.
      cbn [token token_expires]. rewrite Htruthy. cbn [andb].
      destruct (Z.ltb_spec later (now2 + (expires_in - 60) * 1000000));
        [reflexivity | lia].
    + exact Hrequest.
    + intros Hshort later now3 post Hlater. apply Hrequest. lia.
  - intros Hout.
    now rewrite (proj2 (expiry_after_spec now2 (expires_in - 60)) Hout) in Hcall.
Qed.

Lemma token_refresh_then_reuse_witness :
  (exists self',
     _get_token {| token := VNone; token_expires := None |}
       63000000000000000 63000000000000001
       (Ok (VDict [("access_token", VStr "abc"); ("expires_in", VInt 1800)]))
     = (self', Token (VStr "abc"), 1%nat) /\
     _get_token self' 63000001000000000 63000001000000001 (Raise HTTPError)
     = (self', Token (VStr "abc"), 0%nat)) /\
  _get_token {| token := VNone; token_expires := None |}
    63000000000000000 63000000000000001
    (Ok (VDict [("access_token", VStr "abc");
                ("expires_in", VInt 1000000000000000)]))
  = ({| token := VStr "abc"; token_expires := None |},
     TokenOverflowError, 1%nat).
Proof.
  split.
  - destruct (proj1 (token_refresh_then_reuse
                {| token := VNone; token_expires := None |}
                63000000000000000 63000000000000001
                [("access_token", VStr "abc"); ("expires_in", VInt 1800)]
                (VStr "abc") 1800 eq_refl eq_refl eq_refl eq_refl))
      as [self' [Hfirst [Hreuse _]]].
    { unfold datetime_range. split; [split; [discriminate|discriminate] | lia]. }
    exists self'. split; [exact Hfirst|].
    apply Hreuse. lia.
  - refine (proj2 (token_refresh_then_reuse
              {| token := VNone; token_expires := None |}
              63000000000000000 63000000000000001
              [("access_token", VStr "abc");
               ("expires_in", VInt 1000000000000000)]
              (VStr "abc") 1000000000000000 eq_refl eq_refl eq_refl eq_refl) _).
    intros [[_ H] _]. revert H. vm_compute. intros H. now apply H.
Defined.

(** X22: a refresh that fails leaves the client able to recover: whatever
    the token endpoint answers, after a call that does not yield a token
    the stored expiry is the one from before the call, so a client whose
    token was stale before the call sends a request again at the next call
    that reads the same or a later clock. *)
Theorem failed_refresh_is_retried (self : wa_client) (now1 now2 : Z)
    (post : result value) (self' : wa_client) (outcome : token_outcome) (n : nat) :
  _get_token self now1 now2 post = (self', outcome, n) ->
  (forall t, outcome <> Token t) ->
  token_is_fresh self now1 = false /\
  token_expires self' = token_expires self /\
  n = 1%nat /\
  ((truthy (token self) = true \/ token_expires self = None) ->
   forall later now3 post',
     now1 <= later -> snd (_get_token self' later now3 post') = 1%nat).
Proof.
  intros H Hfail. unfold _get_token in H.
  destruct (token_is_fresh self now1) eqn:Hfresh.
  { injection H as Hs Ho Hn. subst self' outcome n. exfalso.
    now apply (Hfail (token self)). }
  assert (Hretry : forall s' : wa_client,
    token_expires s' = token_expires self ->
    (truthy (token self) = true \/ token_expires self = None) ->
    forall later now3 post',
      now1 <= later -> snd (_get_token s' later now3 post') = 1%nat).
  { intros s' Hs Hold later now3 post' Hlater.
    assert (Hstale : token_is_fresh s' later = false).
    { unfold token_is_fresh in *. rewrite Hs.
      destruct (token_expires self) as [t|]; [|apply andb_false_r].
      destruct Hold as [Hold | Hold]; [|discriminate].
      rewrite Hold in Hfresh. cbn [andb] in Hfresh.
      apply Z.ltb_ge in Hfresh.
      destruct (Z.ltb_spec later t); [lia | apply andb_false_r]. }
    exact (next_call_sends_a_request s' later now3 post' Hstale). }
  split; [reflexivity|].
  destruct post as [data|e].
  2:{ injection H as Hs Ho Hn. subst self' outcome n. repeat split.
      now apply Hretry. }
  destruct (py_getitem data "access_token") as [tok| | |] eqn:Ht.
  2,3,4:(injection H as Hs Ho Hn; subst self' outcome n; repeat split;
         now apply Hretry).
  destruct (py_getitem data "expires_in") as [x| | |] eqn:Hx.
  2,3,4:(injection H as Hs Ho Hn; subst self' outcome n; repeat split;
         now apply Hretry).
  destruct (py_sub x (VInt 60)) as [secs|e] eqn:Hsub.
  2:{ injection H as Hs Ho Hn. subst self' outcome n. repeat split.
      now apply Hretry. }
  destruct (expiry_after now2 secs) as [expires|].
  { injection H as Hs Ho Hn. subst self' outcome n. exfalso.
    now apply (Hfail tok). }
  injection H as Hs Ho Hn. subst self' outcome n. repeat split.
  now apply Hretry.
Qed.

Lemma failed_refresh_is_retried_witness :
  snd (_get_token
         (fst (fst (_get_token {| token := VNone; token_expires := None |}
                      1000 2000 (Ok (VDict [("access_token", VStr "abc")])))))
         3000 4000 (Raise HTTPError)) = 1%nat.
Proof.
  refine (proj2 (proj2 (proj2 (failed_refresh_is_retried
    {| token := VNone; token_expires := None |} 1000 2000
    (Ok (VDict [("access_token", VStr "abc")])) _ TokenKeyError 1 eq_refl _)))
    (or_intror eq_refl) 3000 4000 (Raise HTTPError) _).
  - intros t. discriminate.
  - lia.
Defined.
